(** * LiteX: the Lattice Trellis toolchain back-end (litex/build/lattice/trellis.py)

    A shallow embedding of the constraint-file generator, the device
    resolver, the build-script assembler and the build driver, together with
    the properties of the toolchain specification that were checked against
    them.

    Python values are modelled as follows:
    - [str] is [string]; concatenation [+] is [+:+];
    - a [dict] with string keys is a [gmap string _];
    - a raised exception is the [Raise] branch of [result];
    - the process state touched by [build] (working directory, files
      written, the platform object, the commands run) is the record [world],
      threaded through the state-and-exception monad [M]. *)

From Stdlib Require Import Ascii String List ZArith PrimFloat SpecFloat FloatOps DecimalString.
From stdpp Require Import base option list strings gmap fin_maps.

#[local] Open Scope string_scope.
#[local] Open Scope list_scope.

(** ** Exceptions and results *)

Inductive exn : Type :=
| ValueError (msg : string)
| KeyError (key : string)
| IndexError
| TypeError
| OSError (msg : string)
| ZeroDivisionError
| NotModelled (what : string).

Inductive result (A : Type) : Type :=
| Ok (a : A)
| Raise (e : exn).
Arguments Ok {A} a.
Arguments Raise {A} e.

#[global] Instance result_ret : MRet result := fun _ a => Ok a.
#[global] Instance result_bind : MBind result := fun _ _ f r =>
  match r with
  | Ok a => f a
  | Raise e => Raise e
  end.
#[global] Instance result_fmap : FMap result := fun _ _ f r =>
  match r with
  | Ok a => Ok (f a)
  | Raise e => Raise e
  end.

Definition is_ok {A} (r : result A) : bool :=
  match r with Ok _ => true | Raise _ => false end.

(** [[f(x) for x in l]]: the elements are evaluated left to right and the
    first exception aborts the comprehension. *)
Fixpoint comprehension {A B} (f : A -> result B) (l : list A) : result (list B) :=
  match l with
  | [] => Ok []
  | x :: l' =>
      y ← f x;
      ys ← comprehension f l';
      mret (y :: ys)
  end.

(** ** Python string primitives *)

(** The double-quote character and the line feed. *)
Definition dquote : string := String (ascii_of_nat 34) EmptyString.
Definition nl : string := String (ascii_of_nat 10) EmptyString.

(** [needle in haystack] on strings. *)
Fixpoint str_in (needle haystack : string) : bool :=
  String.prefix needle haystack ||
  match haystack with
  | EmptyString => false
  | String _ rest => str_in needle rest
  end.

(** [s.split(sep)] for a one-character separator. *)
Fixpoint str_split (sep : ascii) (s : string) : list string :=
  match s with
  | EmptyString => [EmptyString]
  | String c rest =>
      if Ascii.eqb c sep then EmptyString :: str_split sep rest
      else match str_split sep rest with
           | [] => [String c EmptyString]
           | part :: parts => String c part :: parts
           end
  end.

(** [s.lower()], on the ASCII letters. *)
Definition ascii_lower (c : ascii) : ascii :=
  let n := nat_of_ascii c in
  if (65 <=? n)%nat && (n <=? 90)%nat then ascii_of_nat (n + 32) else c.

Fixpoint str_lower (s : string) : string :=
  match s with
  | EmptyString => EmptyString
  | String c rest => String (ascii_lower c) (str_lower rest)
  end.

(** [str(i)] for a non-negative integer. *)
Definition str_nat (i : nat) : string := NilZero.string_of_uint (Nat.to_uint i).

(** [sep.join(parts)]. *)
Fixpoint str_join (sep : string) (parts : list string) : string :=
  match parts with
  | [] => ""
  | [p] => p
  | p :: rest => p +:+ sep +:+ str_join sep rest
  end.

(** ** Device resolver *)

Definition nextpnr_ecp5_architectures : gmap string string :=
  list_to_map [
    ("lfe5u-25f", "25k");
    ("lfe5u-45f", "45k");
    ("lfe5u-85f", "85k");
    ("lfe5um-25f", "um-25k");
    ("lfe5um-45f", "um-45k");
    ("lfe5um-85f", "um-85k");
    ("lfe5um5g-25f", "um5g-25k");
    ("lfe5um5g-45f", "um5g-45k");
    ("lfe5um5g-85f", "um5g-85k")
  ].

Definition nextpnr_ecp5_package (package : string) : result string :=
  if str_in "285" package then Ok "CSFBGA285"
  else if str_in "381" package then Ok "CABGA381"
  else if str_in "554" package then Ok "CABGA554"
  else if str_in "756" package then Ok "CABGA756"
  else Raise (ValueError "Unknown package").

(** [d[key]] on a dictionary with string keys. *)
Definition dict_get {V} (d : gmap string V) (key : string) : result V :=
  match d !! key with
  | Some v => Ok v
  | None => Raise (KeyError key)
  end.

(** [(a, b, c) = parts]: unpacking into exactly three names. *)
Definition unpack3 (parts : list string) : result (string * string * string) :=
  match parts with
  | [a; b; c] => Ok (a, b, c)
  | _ =>
      if (length parts <? 3)%nat
      then Raise (ValueError ("not enough values to unpack (expected 3, got "
                              +:+ str_nat (length parts) +:+ ")"))
      else Raise (ValueError "too many values to unpack (expected 3)")
  end.

(** The device-resolution statements of [LatticeTrellisToolchain.build]
    (the block "transform platform.device to nextpnr's architecture"). *)
Definition resolve_device (device : string) : result (string * string) :=
  '(family, size, package) ← unpack3 (str_split "-" device);
  architecture ← dict_get nextpnr_ecp5_architectures (str_lower (family +:+ "-" +:+ size));
  package ← nextpnr_ecp5_package package;
  mret (architecture, package).

(** ** Constraint directives *)

(** Modelled from the spec: the classes [Pins], [IOStandard] and [Misc] come
    from litex.build.generic_platform, which is not among the sources at
    hand.  A directive is a [PinAssignment] holding an ordered sequence of
    identifiers, an [IOStandardAssignment] holding a name, or a
    [MiscAssignment] holding free text.  [_format_constraint] inspects the
    class of its argument dynamically, so an object of any other class can
    reach it as well: [OtherDirective] stands for such an object (its
    argument is the class name). *)
Inductive constraint : Type :=
| Pins (identifiers : list string)
| IOStandard (name : string)
| Misc (misc : string)
| OtherDirective (class_name : string).

(** A named signal constraint [(sig, pins, others, resname)]. *)
Definition named_signal : Type := string * list string * list constraint * string.

(** [l[i]] on a list. *)
Definition list_get {A} (l : list A) (i : nat) : result A :=
  match l !! i with
  | Some x => Ok x
  | None => Raise IndexError
  end.

(** The value returned is [None] when no [isinstance] test succeeds: the
    function then runs off its end. *)
Definition _format_constraint (c : constraint) : result (option (string * string)) :=
  match c with
  | Pins identifiers =>
      i0 ← list_get identifiers 0;
      mret (Some ("LOCATE COMP ", " SITE " +:+ dquote +:+ i0 +:+ dquote))
  | IOStandard name => mret (Some ("IOBUF PORT ", " IO_TYPE=" +:+ name))
  | Misc misc => mret (Some ("IOBUF PORT ", " " +:+ misc))
  | OtherDirective _ => mret None
  end.

(** [for pre, suf in fmt_c: r += ...]: unpacking [None] into two names is a
    [TypeError]. *)
Fixpoint _format_lpf_loop (signame : string) (fmt_c : list (option (string * string)))
    (r : string) : result string :=
  match fmt_c with
  | [] => Ok r
  | None :: _ => Raise TypeError
  | Some (pre, suf) :: rest =>
      _format_lpf_loop signame rest
        (r +:+ pre +:+ dquote +:+ signame +:+ dquote +:+ suf +:+ ";" +:+ nl)
  end.

Definition _format_lpf (signame pin : string) (others : list constraint)
    (resname : string) : result string :=
  fmt_c ← comprehension _format_constraint ([Pins [pin]] ++ others);
  _format_lpf_loop signame fmt_c "".

(** [for i, p in enumerate(pins): r += _format_lpf(sig + "[" + str(i) + "]", ...)],
    entered with the index [i] of the first pin of [pins]. *)
Fixpoint _build_lpf_bits (sig : string) (others : list constraint) (resname : string)
    (i : nat) (pins : list string) (r : string) : result string :=
  match pins with
  | [] => Ok r
  | p :: pins' =>
      s ← _format_lpf (sig +:+ "[" +:+ str_nat i +:+ "]") p others resname;
      _build_lpf_bits sig others resname (S i) pins' (r +:+ s)
  end.

(** The body of the loop over [named_sc], for one entry. *)
Definition _build_lpf_body (entry : named_signal) (r : string) : result string :=
  let '(sig, pins, others, resname) := entry in
  if (1 <? length pins)%nat
  then _build_lpf_bits sig others resname 0 pins r
  else
    p0 ← list_get pins 0;
    s ← _format_lpf sig p0 others resname;
    mret (r +:+ s).

(** [for sig, pins, others, resname in named_sc: ...]. *)
Fixpoint _build_lpf_signals (named_sc : list named_signal) (r : string) : result string :=
  match named_sc with
  | [] => Ok r
  | entry :: rest =>
      r' ← _build_lpf_body entry r;
      _build_lpf_signals rest r'
  end.

Definition _build_lpf (named_sc : list named_signal) (named_pc : list string)
    : result string :=
  let r := "BLOCK RESETPATHS;" +:+ nl in
  let r := r +:+ "BLOCK ASYNCPATHS;" +:+ nl in
  r ← _build_lpf_signals named_sc r;
  if bool_decide (named_pc <> [])
  then mret (r +:+ nl +:+ str_join (nl +:+ nl) named_pc)
  else mret r.

(** ** [str.format] with keyword arguments

    The fragment of Python's format-string language used by the templates:
    literal text, the escapes [{{] and [}}], and replacement fields [{name}]
    looked up among the keyword arguments, all of which are strings here.
    Conversions ([!r]), format specifications ([:>8]), attribute and index
    access and nested fields are outside the fragment: a template using
    them is answered with [NotModelled]. *)
Inductive fmt_state : Type :=
| FText                    (* in literal text *)
| FOpen                    (* just after a '{' met in literal text *)
| FClose                   (* just after a '}' met in literal text *)
| FField (name : string).  (* inside a replacement field *)

Definition is_digit (c : ascii) : bool :=
  let n := nat_of_ascii c in (48 <=? n)%nat && (n <=? 57)%nat.

Fixpoint all_digits (s : string) : bool :=
  match s with
  | EmptyString => true
  | String c rest => is_digit c && all_digits rest
  end.

(** An empty or numeric field name is positional; no positional argument is
    ever passed. *)
Definition field_value (kw : gmap string string) (name : string) : result string :=
  if all_digits name then Raise IndexError else dict_get kw name.

Definition field_special (c : ascii) : bool :=
  bool_decide (c ∈ ["{"; "!"; ":"; "."; "["; "]"]%char).

Fixpoint format_go (kw : gmap string string) (s : string) (st : fmt_state)
    : result string :=
  match s with
  | EmptyString =>
      match st with
      | FText => Ok ""
      | FOpen => Raise (ValueError "Single '{' encountered in format string")
      | FClose => Raise (ValueError "Single '}' encountered in format string")
      | FField _ => Raise (ValueError "expected '}' before end of string")
      end
  | String c rest =>
      match st with
      | FText =>
          if Ascii.eqb c "{" then format_go kw rest FOpen
          else if Ascii.eqb c "}" then format_go kw rest FClose
          else String c <$> format_go kw rest FText
      | FOpen =>
          if Ascii.eqb c "{" then String c <$> format_go kw rest FText
          else if Ascii.eqb c "}" then
            v ← field_value kw "";
            (String.append v) <$> format_go kw rest FText
          else if field_special c then Raise (NotModelled "format field")
          else format_go kw rest (FField (String c EmptyString))
      | FClose =>
          if Ascii.eqb c "}" then String c <$> format_go kw rest FText
          else Raise (ValueError "Single '}' encountered in format string")
      | FField name =>
          if Ascii.eqb c "}" then
            v ← field_value kw name;
            (String.append v) <$> format_go kw rest FText
          else if field_special c then Raise (NotModelled "format field")
          else format_go kw rest (FField (name +:+ String c EmptyString))
      end
  end.

(** [template.format(k1=v1, ..., kn=vn)], the keyword arguments given as a
    dictionary. *)
Definition str_format (template : string) (kw : gmap string string) : result string :=
  format_go kw template FText.

(** ** The host and its floats *)

(** The host the toolchain runs on: [sys.platform], the revision reported by
    [tools.get_litex_git_revision()], the exit status [subprocess.call]
    returns for a command line, and [repr] on the floats that [str_float]
    below does not print itself.  Python floats are IEEE 754 binary64
    values: [PrimFloat.float]. *)
Record host : Type := {
  sys_platform : string;
  litex_git_revision : string;
  exit_status : list string -> Z;
  float_repr : float -> string
}.

Definition str_N (n : N) : string := NilZero.string_of_uint (N.to_uint n).

(** [str(x)] for a float.  A float with an integral value below [1e16] in
    magnitude prints as its digits followed by [.0]; the shortest-digits
    printing of the other finite floats is left to the host. *)
Definition str_float (h : host) (x : float) : string :=
  match Prim2SF x with
  | S754_zero s => if s then "-0.0" else "0.0"
  | S754_infinity s => if s then "-inf" else "inf"
  | S754_nan => "nan"
  | S754_finite s m e =>
      let num := if (0 <=? e)%Z then (Z.pos m * 2 ^ e)%Z else Z.pos m in
      let den := if (0 <=? e)%Z then 1%Z else (2 ^ (- e))%Z in
      if ((num mod den =? 0) && (num / den <? 10 ^ 16))%Z
      then (if s then "-" else "") +:+ str_N (Z.to_N (num / den)) +:+ ".0"
      else float_repr h x
  end.

(** [max(values, default=default)]: the first of the largest items. *)
Definition py_max (values : list float) (default : float) : float :=
  match values with
  | [] => default
  | v :: vs => fold_left (fun best x => if PrimFloat.ltb best x then x else best) vs v
  end.

(** ** The toolchain object, the platform object and the process state *)

Record toolchain : Type := {
  yosys_template : list string;
  build_template : list string;
  freq_constraints : gmap string float
}.

(** [LatticeTrellisToolchain.__init__]. *)
Definition __init__ : toolchain := {|
  yosys_template := [
    "{read_files}";
    "attrmap -tocase keep -imap keep=" +:+ dquote +:+ "true" +:+ dquote
      +:+ " keep=1 -imap keep=" +:+ dquote +:+ "false" +:+ dquote
      +:+ " keep=0 -remove keep=0";
    "synth_ecp5 -abc9 {nwl} -json {build_name}.json -top {build_name}"
  ];
  build_template := [
    "yosys -q -l {build_name}.rpt {build_name}.ys";
    "nextpnr-ecp5 --json {build_name}.json --lpf {build_name}.lpf --textcfg {build_name}.config --{architecture} --package {package} --freq {freq_constraint} {timefailarg}";
    "ecppack {build_name}.config --svf {build_name}.svf --bit {build_name}.bit"
  ];
  freq_constraints := ∅
|}.

(** What [platform.get_verilog] returns: the signal namespace [ns] and the
    Verilog text that [write] stores. *)
Record top_output : Type := {
  ns : list string;
  verilog : string
}.

(** Modelled from the spec: the platform object belongs to
    litex.build.generic_platform, which is not among the sources at hand.
    It is the netlist emitter of the spec: [get_verilog] renders the
    finalized design under a name, [resolve_signals] turns a namespace into
    the named signal constraints and the platform commands, [sources] are
    the registered [(filename, language, library)] inputs and [commands] the
    platform commands registered so far, each with the signal it names. *)
Record platform : Type := {
  device : string;
  verilog_include_paths : list string;
  sources : list (string * string * string);
  commands : list (string * string);
  get_verilog : string -> top_output;
  resolve_signals : list string -> list named_signal * list string
}.

(** The state a build acts on. [files] and [calls] are logs, oldest first:
    the files written (absolute path, contents) and the command lines handed
    to [subprocess.call]. *)
Record world : Type := {
  cwd : string;
  dirs : list string;
  files : list (string * string);
  calls : list (list string);
  self_obj : toolchain;
  platform_obj : platform
}.

Definition M (A : Type) : Type := world -> result A * world.

#[global] Instance M_ret : MRet M := fun _ a w => (Ok a, w).
#[global] Instance M_bind : MBind M := fun _ _ f m w =>
  match m w with
  | (Ok a, w') => f a w'
  | (Raise e, w') => (Raise e, w')
  end.

(** A pure computation that may raise. *)
Definition lift {A} (r : result A) : M A := fun w => (r, w).

Definition get_world : M world := fun w => (Ok w, w).
Definition put_world (w : world) : M unit := fun _ => (Ok (), w).

(** [os.path.join(base, path)] on POSIX paths. *)
Definition path_join (base path : string) : string :=
  if String.prefix "/" path then path else base +:+ "/" +:+ path.

Definition os_getcwd : M string := w ← get_world; mret (cwd w).

Definition os_chdir (path : string) : M unit :=
  w ← get_world;
  put_world {| cwd := path_join (cwd w) path; dirs := dirs w; files := files w;
               calls := calls w; self_obj := self_obj w;
               platform_obj := platform_obj w |}.

(** [os.makedirs(path, exist_ok=True)]. *)
Definition os_makedirs (path : string) : M unit :=
  w ← get_world;
  put_world {| cwd := cwd w; dirs := dirs w ++ [path_join (cwd w) path];
               files := files w; calls := calls w; self_obj := self_obj w;
               platform_obj := platform_obj w |}.

(** Modelled from the spec: the file-write utility [tools.write_to_file]
    belongs to litex.build.tools, which is not among the sources at hand:
    [write(path, contents, platform_line_endings)] stores [contents] at
    [path].  [top_output.write] stores the Verilog text the same way. *)
Definition write_to_file (filename contents : string) : M unit :=
  w ← get_world;
  put_world {| cwd := cwd w; dirs := dirs w;
               files := files w ++ [(path_join (cwd w) filename, contents)];
               calls := calls w; self_obj := self_obj w;
               platform_obj := platform_obj w |}.

Definition set_platform (p : platform) : M unit :=
  w ← get_world;
  put_world {| cwd := cwd w; dirs := dirs w; files := files w; calls := calls w;
               self_obj := self_obj w; platform_obj := p |}.

(** Modelled from the spec: [platform.add_source(path)] registers the
    emitted file as an additional input source; the file [build] registers
    is the Verilog top file, in the default library. *)
Definition platform_add_source (p : platform) (filename : string) : platform :=
  {| device := device p;
     verilog_include_paths := verilog_include_paths p;
     sources := sources p ++ [(filename, "verilog", "work")];
     commands := commands p;
     get_verilog := get_verilog p;
     resolve_signals := resolve_signals p |}.

Definition add_source (filename : string) : M unit :=
  w ← get_world;
  set_platform (platform_add_source (platform_obj w) filename).

(** Modelled from the spec: [platform.add_platform_command(text, clk=clk)]
    appends one platform command, with the signal bound to its placeholder. *)
Definition add_platform_command (text clk : string) : M unit :=
  w ← get_world;
  let p := platform_obj w in
  set_platform {| device := device p;
                  verilog_include_paths := verilog_include_paths p;
                  sources := sources p;
                  commands := commands p ++ [(text, clk)];
                  get_verilog := get_verilog p;
                  resolve_signals := resolve_signals p |}.

(** [subprocess.call(args)]. *)
Definition subprocess_call (h : host) (args : list string) : M Z :=
  w ← get_world;
  put_world {| cwd := cwd w; dirs := dirs w; files := files w;
               calls := calls w ++ [args]; self_obj := self_obj w;
               platform_obj := platform_obj w |};;
  mret (exit_status h args).

(** ** Script assembler *)

Definition is_windows (h : host) : bool :=
  bool_decide (sys_platform h ∈ ["win32"; "cygwin"]).

Definition script_ext (h : host) : string :=
  if is_windows h then ".bat" else ".sh".

Definition script_header (h : host) : string :=
  if is_windows h
  then "@echo off" +:+ nl +:+ "rem Autogenerated by LiteX / git: "
       +:+ litex_git_revision h +:+ nl +:+ nl
  else "# Autogenerated by LiteX / git: " +:+ litex_git_revision h +:+ nl
       +:+ "set -e" +:+ nl.

Definition fail_stmt (h : host) : string :=
  if is_windows h then " || exit /b" else "".

(** The keyword arguments every build template is rendered with. *)
Definition script_kwargs (h : host) (build_name architecture package
    freq_constraint : string) (timingstrict : bool) : gmap string string :=
  list_to_map [
    ("build_name", build_name);
    ("architecture", architecture);
    ("package", package);
    ("freq_constraint", freq_constraint);
    ("timefailarg", if negb timingstrict then "--timing-allow-fail" else "");
    ("fail_stmt", fail_stmt h)
  ].

(** [for s in build_template: build_script_contents += s_fail.format(...)]. *)
Fixpoint _build_script_loop (kw : gmap string string) (build_template : list string)
    (build_script_contents : string) : result string :=
  match build_template with
  | [] => Ok build_script_contents
  | s :: rest =>
      let s_fail := s +:+ "{fail_stmt}" +:+ nl in
      line ← str_format s_fail kw;
      _build_script_loop kw rest (build_script_contents +:+ line)
  end.

Definition _build_script (h : host) (source : bool) (build_template : list string)
    (build_name architecture package freq_constraint : string)
    (timingstrict : bool) : M string :=
  let build_script_contents := script_header h in
  build_script_contents ← lift (_build_script_loop
    (script_kwargs h build_name architecture package freq_constraint timingstrict)
    build_template build_script_contents);
  let build_script_file := "build_" +:+ build_name +:+ script_ext h in
  write_to_file build_script_file build_script_contents;;
  mret build_script_file.

Definition _run_script (h : host) (script : string) : M unit :=
  let shell := if is_windows h then ["cmd"; "/c"] else ["bash"] in
  status ← subprocess_call h (shell ++ [script]);
  if bool_decide (status <> 0%Z)
  then lift (Raise (OSError "Subprocess failed"))
  else mret ().

Definition yosys_import_sources (p : platform) : string :=
  let includes :=
    fold_left (fun includes path => includes +:+ " -I" +:+ path)
              (verilog_include_paths p) "" in
  let reads :=
    map (fun '(filename, language, library) =>
           "read_" +:+ language +:+ includes +:+ " " +:+ filename)
        (sources p) in
  str_join nl reads.

(** ** Build driver *)

(** [str(max(self.freq_constraints.values(), default=0.0))].  The values are
    taken in the order of [map_to_list]; Python takes them in insertion
    order, which only matters for the choice among floats that compare
    equal. *)
Definition build_freq_constraint (h : host) (self : toolchain) : string :=
  str_float h (py_max ((map_to_list (freq_constraints self)).*2) 0%float).

(** The keyword arguments every yosys template is rendered with. *)
Definition yosys_kwargs (p : platform) (build_name : string) (nowidelut : bool)
    : gmap string string :=
  list_to_map [
    ("build_name", build_name);
    ("nwl", if nowidelut then "-nowidelut" else "");
    ("read_files", yosys_import_sources p)
  ].

(** [LatticeTrellisToolchain.build(self, platform, fragment, build_dir,
    build_name, toolchain_path, run, nowidelut, timingstrict)].  [self] and
    [platform] are the two objects of the [world]; finalizing the fragment
    and rendering it are the platform's [get_verilog]. *)
Definition build (h : host) (build_dir build_name : string)
    (run nowidelut timingstrict : bool) : M (list string) :=
  os_makedirs build_dir;;
  cwd ← os_getcwd;
  os_chdir build_dir;;

  (* generate verilog *)
  w ← get_world;
  let top_output := get_verilog (platform_obj w) build_name in
  let '(named_sc, named_pc) := resolve_signals (platform_obj w) (ns top_output) in
  let top_file := build_name +:+ ".v" in
  write_to_file top_file (verilog top_output);;
  add_source top_file;;

  (* generate constraints *)
  lpf ← lift (_build_lpf named_sc named_pc);
  write_to_file (build_name +:+ ".lpf") lpf;;

  (* generate yosys script *)
  let yosys_script_file := build_name +:+ ".ys" in
  w ← get_world;
  let self := self_obj w in
  yosys_lines ← lift (comprehension
    (fun t => str_format t (yosys_kwargs (platform_obj w) build_name nowidelut))
    (yosys_template self));
  write_to_file yosys_script_file (str_join nl yosys_lines);;

  (* transform platform.device to nextpnr's architecture *)
  '(architecture, package) ← lift (resolve_device (device (platform_obj w)));
  let freq_constraint := build_freq_constraint h self in

  script ← _build_script h false (build_template self) build_name
             architecture package freq_constraint timingstrict;

  (* run scripts *)
  (if run then _run_script h script else mret ());;

  os_chdir cwd;;

  mret (ns top_output).

(** [LatticeTrellisToolchain.add_period_constraint(self, platform, clk, period)]. *)
Definition add_period_constraint (h : host) (clk : string) (period : float) : M unit :=
  inv ← lift (if PrimFloat.eqb period 0%float then Raise ZeroDivisionError
              else Ok (1 / period)%float);
  text ← lift (str_format
    ("FREQUENCY PORT " +:+ dquote +:+ "{clk}" +:+ dquote +:+ " {freq} MHz;")
    (list_to_map [("freq", str_float h (inv * 1000)%float); ("clk", "{clk}")]));
  add_platform_command text clk.

(** ** Vocabulary of the specification *)

(** [needle] occurs in [s] as a contiguous substring. *)
Definition occurs_in (needle s : string) : Prop :=
  exists before after, s = before +:+ needle +:+ after.

(** The ordered package-marker list of the device resolver. *)
Definition package_markers : list (string * string) :=
  [("285", "CSFBGA285"); ("381", "CABGA381"); ("554", "CABGA554"); ("756", "CABGA756")].

(** The unknown-package error. *)
Definition UnknownPackage : exn := ValueError "Unknown package".

(** A device identifier [family-size-package]. *)
Definition device_id (family size package : string) : string :=
  family +:+ "-" +:+ size +:+ "-" +:+ package.

(** One of the three recognized directive variants. *)
Definition recognized (c : constraint) : bool :=
  match c with
  | Pins _ | IOStandard _ | Misc _ => true
  | OtherDirective _ => false
  end.

(** A recognized directive that the formatter can render: a pin assignment
    needs a first identifier. *)
Definition formattable (c : constraint) : bool :=
  match c with
  | Pins [] | OtherDirective _ => false
  | Pins (_ :: _) | IOStandard _ | Misc _ => true
  end.

Definition str_concat (parts : list string) : string :=
  foldr String.append "" parts.

(** The [LOCATE] clause placing [signame] on [pin]. *)
Definition locate_clause (signame pin : string) : string :=
  "LOCATE COMP " +:+ dquote +:+ signame +:+ dquote +:+ " SITE "
  +:+ dquote +:+ pin +:+ dquote +:+ ";" +:+ nl.

(** The clause an extra directive contributes to the block of [signame]. *)
Definition directive_clause (signame : string) (c : constraint) : string :=
  match c with
  | Pins (pin :: _) => locate_clause signame pin
  | IOStandard name =>
      "IOBUF PORT " +:+ dquote +:+ signame +:+ dquote +:+ " IO_TYPE=" +:+ name +:+ ";" +:+ nl
  | Misc misc =>
      "IOBUF PORT " +:+ dquote +:+ signame +:+ dquote +:+ " " +:+ misc +:+ ";" +:+ nl
  | Pins [] | OtherDirective _ => ""
  end.

(** The clauses of a constraint block: one [LOCATE] clause, then one clause
    per extra directive, in input order. *)
Definition block_clauses (signame pin : string) (others : list constraint)
    : list string :=
  locate_clause signame pin :: map (directive_clause signame) others.

Definition block (signame pin : string) (others : list constraint) : string :=
  str_concat (block_clauses signame pin others).

Definition is_locate_clause (clause : string) : bool :=
  String.prefix "LOCATE COMP " clause.

(** An extra directive in the sense of the data model, where the one pin
    assignment of a signal precedes its other directives: an I/O standard or
    a misc assignment. *)
Definition extra_directive (c : constraint) : bool :=
  match c with
  | IOStandard _ | Misc _ => true
  | Pins _ | OtherDirective _ => false
  end.

(** The name of bit [i] of a bus. *)
Definition bit_name (sig : string) (i : nat) : string :=
  sig +:+ "[" +:+ str_nat i +:+ "]".

Definition lpf_header : string :=
  "BLOCK RESETPATHS;" +:+ nl +:+ "BLOCK ASYNCPATHS;" +:+ nl.

(** The trailing section of the constraint file. *)
Definition platform_commands_text (named_pc : list string) : string :=
  match named_pc with
  | [] => ""
  | _ :: _ => nl +:+ str_join (nl +:+ nl) named_pc
  end.

(** Two named signal constraints that differ at most in their resource name. *)
Definition same_up_to_resname (a b : named_signal) : Prop :=
  let '(sig_a, pins_a, others_a, _) := a in
  let '(sig_b, pins_b, others_b, _) := b in
  sig_a = sig_b /\ pins_a = pins_b /\ others_a = others_b.

Definition signal_pins (s : named_signal) : list string :=
  let '(_, pins, _, _) := s in pins.

Definition signal_others (s : named_signal) : list constraint :=
  let '(_, _, others, _) := s in others.

(** The blocks of a bus, bit by bit in ascending index order. *)
Definition bus_blocks (sig : string) (pins : list string) (others : list constraint)
    : list string :=
  imap (fun i pin => block (bit_name sig i) pin others) pins.

(** The text one named signal contributes to the constraint file. *)
Definition signal_text (s : named_signal) : string :=
  let '(sig, pins, others, _) := s in
  match pins with
  | [] => ""
  | [pin] => block sig pin others
  | _ :: _ :: _ => str_concat (bus_blocks sig pins others)
  end.

(** A named signal constraint the builder can render: at least one pin and
    formattable extra directives. *)
Definition well_formed_signal (s : named_signal) : Prop :=
  signal_pins s <> [] /\ Forall (fun c => formattable c = true) (signal_others s).

(** A build-script line: the rendered command, the fail sentinel, a line
    feed. *)
Definition script_line (h : host) (rendered : string) : string :=
  rendered +:+ fail_stmt h +:+ nl.

(** ** Sample hosts, platform and process state

    No sample prints a float with a fractional part, so the hosts' [repr] is
    a placeholder. *)

Definition posix_host (status : Z) : host := {|
  sys_platform := "linux";
  litex_git_revision := "9c9b6c2";
  exit_status := fun _ => status;
  float_repr := fun _ => "?"
|}.

Definition windows_host : host := {|
  sys_platform := "win32";
  litex_git_revision := "9c9b6c2";
  exit_status := fun _ => 0%Z;
  float_repr := fun _ => "?"
|}.

Definition sample_signals : list named_signal :=
  [("clk", ["A1"], [IOStandard "LVCMOS33"], "clk100");
   ("led", ["B1"; "B2"], [IOStandard "LVCMOS25"; Misc "DRIVE=4"], "user_led")].

Definition sample_platform (device : string) : platform := {|
  device := device;
  verilog_include_paths := [];
  sources := [];
  commands := [];
  get_verilog := fun name =>
    {| ns := ["clk"; "led"]; verilog := "module " +:+ name +:+ "();" |};
  resolve_signals := fun _ => (sample_signals, [])
|}.

Definition sample_world (device : string) : world := {|
  cwd := "/home/user/design";
  dirs := [];
  files := [];
  calls := [];
  self_obj := __init__;
  platform_obj := sample_platform device
|}.

(** The three commands of [__init__]'s build template, rendered for the build
    [top] of a 25k device in the CSFBGA285 package, timing failures allowed. *)
Definition sample_rendered : list string :=
  ["yosys -q -l top.rpt top.ys";
   "nextpnr-ecp5 --json top.json --lpf top.lpf --textcfg top.config --25k --package CSFBGA285 --freq 0.0 --timing-allow-fail";
   "ecppack top.config --svf top.svf --bit top.bit"].

(** The constraint file of [sample_signals]. *)
Definition sample_lpf : string :=
  lpf_header
  +:+ block "clk" "A1" [IOStandard "LVCMOS33"]
  +:+ block "led[0]" "B1" [IOStandard "LVCMOS25"; Misc "DRIVE=4"]
  +:+ block "led[1]" "B2" [IOStandard "LVCMOS25"; Misc "DRIVE=4"].

(** The synthesis script of the build [top] of [sample_platform], line by
    line. *)
Definition sample_yosys_lines : list string :=
  ["read_verilog top.v";
   "attrmap -tocase keep -imap keep=" +:+ dquote +:+ "true" +:+ dquote
     +:+ " keep=1 -imap keep=" +:+ dquote +:+ "false" +:+ dquote
     +:+ " keep=0 -remove keep=0";
   "synth_ecp5 -abc9  -json top.json -top top"].

(** ** Vocabulary of the further properties *)

(** The number of occurrences of a character in a string. *)
Fixpoint count_char (c : ascii) (s : string) : nat :=
  match s with
  | EmptyString => 0
  | String x rest => (if Ascii.eqb x c then 1 else 0) + count_char c rest
  end.

(** No character of the string is a letter or comes after the letters:
    every code is below that of [A]. *)
Fixpoint below_letters (s : string) : bool :=
  match s with
  | EmptyString => true
  | String c rest => (nat_of_ascii c <? 65)%nat && below_letters rest
  end.

(** The include flags of a [read_] line: one [-I] flag per include path, in
    order. *)
Definition include_flags (paths : list string) : string :=
  str_concat (map (fun path => " -I" +:+ path) paths).

(** The [read_] line of one registered source. *)
Definition read_line (includes : string) (source : string * string * string) : string :=
  let '(filename, language, _) := source in
  "read_" +:+ language +:+ includes +:+ " " +:+ filename.

(** The three commands of the build template of [__init__], rendered. *)
Definition default_build_lines (build_name architecture package
    freq_constraint : string) (timingstrict : bool) : list string :=
  ["yosys -q -l " +:+ build_name +:+ ".rpt " +:+ build_name +:+ ".ys";
   "nextpnr-ecp5 --json " +:+ build_name +:+ ".json --lpf " +:+ build_name
     +:+ ".lpf --textcfg " +:+ build_name +:+ ".config --" +:+ architecture
     +:+ " --package " +:+ package +:+ " --freq " +:+ freq_constraint +:+ " "
     +:+ (if timingstrict then "" else "--timing-allow-fail");
   "ecppack " +:+ build_name +:+ ".config --svf " +:+ build_name
     +:+ ".svf --bit " +:+ build_name +:+ ".bit"].

(** The three lines of the yosys template of [__init__], rendered. *)
Definition default_yosys_lines (read_files build_name : string) (nowidelut : bool)
    : list string :=
  [read_files;
   "attrmap -tocase keep -imap keep=" +:+ dquote +:+ "true" +:+ dquote
     +:+ " keep=1 -imap keep=" +:+ dquote +:+ "false" +:+ dquote
     +:+ " keep=0 -remove keep=0";
   "synth_ecp5 -abc9 " +:+ (if nowidelut then "-nowidelut" else "")
     +:+ " -json " +:+ build_name +:+ ".json -top " +:+ build_name].

(** The platform command [add_period_constraint] registers for a period. *)
Definition frequency_command (h : host) (period : float) : string :=
  "FREQUENCY PORT " +:+ dquote +:+ "{clk}" +:+ dquote +:+ " "
  +:+ str_float h (1 / period * 1000) +:+ " MHz;".

(** The command line [_run_script] hands to [subprocess.call]. *)
Definition script_command (h : host) (script : string) : list string :=
  (if is_windows h then ["cmd"; "/c"] else ["bash"]) ++ [script].

(** Two directives that are equal up to the identifiers after the first of
    a pin assignment. *)
Definition same_first_identifier (c c' : constraint) : Prop :=
  match c, c' with
  | Pins (i :: _), Pins (i' :: _) => i = i'
  | _, _ => c = c'
  end.

(** The package names of nextpnr-ecp5. *)
Definition package_names : list string :=
  ["CSFBGA285"; "CABGA381"; "CABGA554"; "CABGA756"].

(** The four files of a build with the templates of [__init__], in the order
    they are written: the Verilog top file, the constraint file [lpf], the
    synthesis script and the build script. *)
Definition build_artifacts (h : host) (w : world) (build_dir build_name : string)
    (nowidelut timingstrict : bool) (architecture package lpf : string)
    : list (string * string) :=
  let dir := path_join (cwd w) build_dir in
  let top_file := build_name +:+ ".v" in
  [(path_join dir top_file, verilog (get_verilog (platform_obj w) build_name));
   (path_join dir (build_name +:+ ".lpf"), lpf);
   (path_join dir (build_name +:+ ".ys"),
    str_join nl (default_yosys_lines
                   (yosys_import_sources
                      (platform_add_source (platform_obj w) top_file))
                   build_name nowidelut));
   (path_join dir ("build_" +:+ build_name +:+ script_ext h),
    script_header h
    +:+ str_concat (map (script_line h)
          (default_build_lines build_name architecture package
             (build_freq_constraint h (self_obj w)) timingstrict)))].

(** A process state whose platform resolves to one signal with a directive
    that is none of the three recognized variants. *)
Definition sample_world_unrecognized : world := {|
  cwd := "/home/user/design";
  dirs := [];
  files := [];
  calls := [];
  self_obj := __init__;
  platform_obj := {|
    device := "lfe5u-25f-csfbga285";
    verilog_include_paths := [];
    sources := [];
    commands := [];
    get_verilog := fun name =>
      {| ns := ["led"]; verilog := "module " +:+ name +:+ "();" |};
    resolve_signals := fun _ =>
      ([("led", ["B1"], [OtherDirective "Drive"], "user_led")], [])
  |}
|}.

(** * Properties *)

#[local] Arguments String.append !_ _ : simpl nomatch.

(** ** The model on small inputs *)

Example resolve_device_ex1 :
  resolve_device "lfe5u-25f-csfbga285" = Ok ("25k", "CSFBGA285").
Proof. vm_compute. reflexivity. Qed.

Example resolve_device_ex2 :
  resolve_device "LFE5UM5G-85F-8BG381C" = Ok ("um5g-85k", "CABGA381").
Proof. vm_compute. reflexivity. Qed.

Example resolve_device_ex3 :
  resolve_device "lfe5u-25f" =
  Raise (ValueError "not enough values to unpack (expected 3, got 2)").
Proof. vm_compute. reflexivity. Qed.

Example str_format_ex1 :
  str_format "synth_ecp5 {nwl} -json {build_name}.json"
    (list_to_map [("build_name", "top"); ("nwl", "-nowidelut")]) =
  Ok "synth_ecp5 -nowidelut -json top.json".
Proof. vm_compute. reflexivity. Qed.

Example str_format_ex2 :
  str_format "a{{b}}{c}" (list_to_map [("c", "d")]) = Ok "a{b}d".
Proof. vm_compute. reflexivity. Qed.

Example str_format_ex3 :
  str_format "{missing}" (list_to_map [("c", "d")]) = Raise (KeyError "missing").
Proof. vm_compute. reflexivity. Qed.

Example str_split_ex : str_split "-" "lfe5u-25f-" = ["lfe5u"; "25f"; ""].
Proof. reflexivity. Qed.

Example str_float_ex :
  str_float (posix_host 0) 0 = "0.0" /\
  str_float (posix_host 0) (1 / 8 * 1000) = "125.0" /\
  str_float (posix_host 0) (-3) = "-3.0".
Proof. vm_compute. repeat split; reflexivity. Qed.

(** ** Strings *)

Lemma str_app_assoc (a b c : string) : (a +:+ b) +:+ c = a +:+ b +:+ c.
Proof. induction a as [|x a IH]; simpl; [reflexivity | by rewrite IH]. Qed.

Lemma str_app_nil_r (a : string) : a +:+ "" = a.
Proof. induction a as [|x a IH]; simpl; [reflexivity | by rewrite IH]. Qed.

Lemma prefix_occurs (m s : string) :
  String.prefix m s = true <-> exists after, s = m +:+ after.
Proof.
  revert s. induction m as [|x m IH]; intros s.
  - destruct s; simpl; split; eauto.
  - destruct s as [|y s]; simpl.
    + split; [discriminate | intros [after H]; discriminate].
    + destruct (ascii_dec x y) as [->|Hxy].
      * rewrite IH. split; intros [after H]; exists after; congruence.
      * split; [discriminate | intros [after H]; congruence].
Qed.

Lemma str_in_occurs (m s : string) : str_in m s = true <-> occurs_in m s.
Proof.
  unfold occurs_in. induction s as [|y s IH].
  - cbn [str_in]. rewrite orb_false_r, prefix_occurs. split.
    + intros [after H]. by exists "", after.
    + intros (before & after & H). destruct before; [by exists after | discriminate].
  - cbn [str_in]. rewrite orb_true_iff, prefix_occurs, IH. split.
    + intros [[after H]|(before & after & H)].
      * by exists "", after.
      * exists (String y before), after. simpl. by rewrite H.
    + intros (before & after & H). destruct before as [|z before].
      * left. by exists after.
      * right. exists before, after. simpl in H. congruence.
Qed.

Lemma str_in_absent (m s : string) : str_in m s = false <-> ~ occurs_in m s.
Proof. rewrite <- str_in_occurs. destruct (str_in m s); split; congruence. Qed.

Lemma str_lower_app (a b : string) :
  str_lower (a +:+ b) = str_lower a +:+ str_lower b.
Proof. induction a as [|x a IH]; simpl; [reflexivity | by rewrite IH]. Qed.

Lemma occurs_in_cons (m : string) (c : ascii) (s : string) :
  occurs_in m s -> occurs_in m (String c s).
Proof. intros (before & after & ->). by exists (String c before), after. Qed.

Lemma str_split_app (a rest : string) :
  ~ occurs_in "-" a ->
  str_split "-" (a +:+ "-" +:+ rest) = a :: str_split "-" rest.
Proof.
  change ("-" +:+ rest) with (String "-" rest).
  induction a as [|c a IH]; intros Hno; simpl; [reflexivity|].
  destruct (Ascii.eqb_spec c "-") as [->|Hc].
  - destruct Hno. by exists "", a.
  - rewrite IH; [reflexivity|]. intros H. apply Hno. by apply occurs_in_cons.
Qed.

Lemma str_split_single (a : string) :
  ~ occurs_in "-" a -> str_split "-" a = [a].
Proof.
  induction a as [|c a IH]; intros Hno; simpl; [reflexivity|].
  destruct (Ascii.eqb_spec c "-") as [->|Hc].
  - destruct Hno. by exists "", a.
  - rewrite IH; [reflexivity|]. intros H. apply Hno. by apply occurs_in_cons.
Qed.

(** ** Device resolver *)

Lemma resolve_device_parts (family size package : string) :
  ~ occurs_in "-" family -> ~ occurs_in "-" size -> ~ occurs_in "-" package ->
  resolve_device (device_id family size package) =
    (architecture ← dict_get nextpnr_ecp5_architectures
                      (str_lower (family +:+ "-" +:+ size));
     package ← nextpnr_ecp5_package package;
     mret (architecture, package)).
Proof.
  intros Hf Hs Hp. unfold resolve_device, device_id.
  rewrite (str_split_app family), (str_split_app size), (str_split_single package)
    by assumption.
  reflexivity.
Qed.

Lemma nextpnr_ecp5_package_unknown (package : string) :
  (forall marker name, (marker, name) ∈ package_markers -> ~ occurs_in marker package) ->
  nextpnr_ecp5_package package = Raise UnknownPackage.
Proof.
  intros Hnone. unfold nextpnr_ecp5_package.
  assert (forall marker name, (marker, name) ∈ package_markers ->
            str_in marker package = false) as H.
  { intros marker name Hin. apply str_in_absent. eauto. }
  rewrite (H "285" "CSFBGA285"), (H "381" "CABGA381"), (H "554" "CABGA554"),
    (H "756" "CABGA756") by (unfold package_markers; set_solver).
  reflexivity.
Qed.

Lemma nextpnr_ecp5_package_first (package marker name : string)
    (earlier later : list (string * string)) :
  package_markers = (earlier ++ (marker, name) :: later)%list ->
  (forall m n, (m, n) ∈ earlier -> ~ occurs_in m package) ->
  occurs_in marker package ->
  nextpnr_ecp5_package package = Ok name.
Proof.
  intros Hsplit Hearlier Hhere. unfold nextpnr_ecp5_package.
  assert (forall m n, (m, n) ∈ earlier -> str_in m package = false) as H.
  { intros m n Hin. apply str_in_absent. eauto. }
  apply str_in_occurs in Hhere.
  unfold package_markers in Hsplit.
  destruct earlier as [|[m1 n1] [|[m2 n2] [|[m3 n3] [|[m4 n4] [|? ?]]]]];
    simplify_eq/=.
  - by rewrite Hhere.
  - rewrite (H "285" "CSFBGA285") by set_solver. by rewrite Hhere.
  - rewrite (H "285" "CSFBGA285"), (H "381" "CABGA381") by set_solver.
    by rewrite Hhere.
  - rewrite (H "285" "CSFBGA285"), (H "381" "CABGA381"), (H "554" "CABGA554")
      by set_solver.
    by rewrite Hhere.
Qed.

Lemma resolve_device_case (family size family' size' package : string) :
  ~ occurs_in "-" family -> ~ occurs_in "-" size ->
  ~ occurs_in "-" family' -> ~ occurs_in "-" size' ->
  ~ occurs_in "-" package ->
  str_lower family = str_lower family' -> str_lower size = str_lower size' ->
  resolve_device (device_id family size package) =
  resolve_device (device_id family' size' package).
Proof.
  intros Hf Hs Hf' Hs' Hp Ef Es.
  rewrite !resolve_device_parts by assumption.
  rewrite !str_lower_app. by rewrite Ef, Es.
Qed.

(** Discharges [~ occurs_in m s] and [forall marker name, _ ∈ package_markers
    -> ~ occurs_in marker s] on closed strings by running [str_in]. *)
Ltac absent :=
  lazymatch goal with
  | |- ~ occurs_in _ _ => apply str_in_absent; vm_compute; reflexivity
  | |- forall _ _, _ ∈ _ -> ~ occurs_in _ _ =>
      let H := fresh in
      intros ? ? H; apply list_elem_of_In in H; simpl in H;
      repeat (destruct H as [H|H]; [injection H as <- <-; absent|]);
      destruct H
  end.

(** C5. Device resolution maps [lfe5u-25f-csfbga285] to architecture [25k]
    and package [CSFBGA285].  In general the package part is classified by
    the first marker of the ordered list 285, 381, 554, 756 that occurs in
    it as a substring, and the unknown-package error is raised when none
    occurs; the architecture is found by looking up the lower-cased
    [family-size] in the fixed table, so that the lookup does not depend on
    the case of the family and size parts. *)
Theorem device_resolution :
  resolve_device "lfe5u-25f-csfbga285" = Ok ("25k", "CSFBGA285") /\
  (forall (package marker name : string) (earlier later : list (string * string)),
     package_markers = (earlier ++ (marker, name) :: later)%list ->
     (forall m n, (m, n) ∈ earlier -> ~ occurs_in m package) ->
     occurs_in marker package ->
     nextpnr_ecp5_package package = Ok name) /\
  (forall package : string,
     (forall marker name, (marker, name) ∈ package_markers ->
                          ~ occurs_in marker package) ->
     nextpnr_ecp5_package package = Raise UnknownPackage) /\
  (forall family size package : string,
     ~ occurs_in "-" family -> ~ occurs_in "-" size -> ~ occurs_in "-" package ->
     resolve_device (device_id family size package) =
       (architecture ← dict_get nextpnr_ecp5_architectures
                         (str_lower (family +:+ "-" +:+ size));
        package ← nextpnr_ecp5_package package;
        mret (architecture, package))) /\
  (forall family size family' size' package : string,
     ~ occurs_in "-" family -> ~ occurs_in "-" size ->
     ~ occurs_in "-" family' -> ~ occurs_in "-" size' ->
     ~ occurs_in "-" package ->
     str_lower family = str_lower family' -> str_lower size = str_lower size' ->
     resolve_device (device_id family size package) =
     resolve_device (device_id family' size' package)).
Proof.
  split; [vm_compute; reflexivity|].
  split; [intros; eapply nextpnr_ecp5_package_first; eassumption|].
  split; [exact nextpnr_ecp5_package_unknown|].
  split; [exact resolve_device_parts | exact resolve_device_case].
Qed.

Lemma device_resolution_witness :
  nextpnr_ecp5_package "8bg381c" = Ok "CABGA381" /\
  nextpnr_ecp5_package "xyz999" = Raise UnknownPackage /\
  resolve_device (device_id "LFE5UM" "45F" "8bg554c") =
  resolve_device (device_id "lfe5um" "45f" "8bg554c").
Proof.
  destruct device_resolution as (_ & Hfirst & Hnone & _ & Hcase).
  split; [|split].
  - apply (Hfirst "8bg381c" "381" "CABGA381" [("285", "CSFBGA285")]
             [("554", "CABGA554"); ("756", "CABGA756")]).
    + reflexivity.
    + absent.
    + apply str_in_occurs. vm_compute. reflexivity.
  - apply (Hnone "xyz999"). absent.
  - apply (Hcase "LFE5UM" "45F" "lfe5um" "45f" "8bg554c");
      try absent; vm_compute; reflexivity.
Defined.

(** ** Constraint formatter *)

Lemma _format_constraint_formattable (signame : string) (c : constraint) :
  formattable c = true ->
  exists pre suf,
    _format_constraint c = Ok (Some (pre, suf)) /\
    pre +:+ dquote +:+ signame +:+ dquote +:+ suf +:+ ";" +:+ nl
      = directive_clause signame c.
Proof.
  destruct c as [[|pin ids]|name|misc|cls]; intros Hc; try discriminate;
    eexists _, _; (split; [reflexivity|]);
    unfold directive_clause, locate_clause; by rewrite !str_app_assoc.
Qed.

Lemma _format_constraint_unrecognized (c : constraint) :
  recognized c = false -> _format_constraint c = Ok None.
Proof. destruct c; intros Hc; try discriminate; reflexivity. Qed.

Lemma _format_constraint_recognized (c : constraint) :
  recognized c = true ->
  (exists p, _format_constraint c = Ok (Some p)) \/ _format_constraint c = Raise IndexError.
Proof.
  destruct c as [[|pin ids]|name|misc|cls]; intros Hc; try discriminate;
    (by right) || (left; eexists; reflexivity).
Qed.

Lemma comprehension_Forall2 {A B} (f : A -> result B) (l : list A) (ys : list B) :
  comprehension f l = Ok ys <-> Forall2 (fun x y => f x = Ok y) l ys.
Proof.
  revert ys. induction l as [|x l IH]; intros ys; simpl.
  - split; [intros [= <-]; constructor | by inversion 1].
  - destruct (f x) as [y|e] eqn:Hx; simpl.
    + destruct (comprehension f l) as [ys'|e] eqn:Hl; simpl.
      * split.
        -- intros [= <-]. constructor; [done | by apply IH].
        -- inversion 1 as [|? y' ? ys'' Hy Hys]; subst.
           apply IH in Hys. unfold mret, result_ret. congruence.
      * split; [discriminate|].
        inversion 1 as [|? y' ? ys'' Hy Hys]; subst. apply IH in Hys. discriminate.
    + split; [discriminate|]. inversion 1; congruence.
Qed.

Lemma _format_lpf_loop_ok (signame : string) (others : list constraint)
    (fmt_c : list (option (string * string))) (r : string) :
  Forall (fun c => formattable c = true) others ->
  Forall2 (fun c y => _format_constraint c = Ok y) others fmt_c ->
  _format_lpf_loop signame fmt_c r
    = Ok (r +:+ str_concat (map (directive_clause signame) others)).
Proof.
  intros Hall H. revert r. induction H as [|c y others fmt_c Hc _ IH]; intros r.
  - simpl. by rewrite str_app_nil_r.
  - apply Forall_cons in Hall as [Hf Hall].
    destruct (_format_constraint_formattable signame c Hf) as (pre & suf & E & Htxt).
    rewrite E in Hc. injection Hc as <-. cbn [_format_lpf_loop].
    rewrite (IH Hall). cbn [map str_concat foldr]. rewrite <- Htxt.
    by rewrite !str_app_assoc.
Qed.

Lemma _format_lpf_loop_None (signame : string)
    (fmt_c : list (option (string * string))) (r : string) :
  None ∈ fmt_c -> _format_lpf_loop signame fmt_c r = Raise TypeError.
Proof.
  revert r. induction fmt_c as [|[[pre suf]|] fmt_c IH]; intros r Hin.
  - by apply not_elem_of_nil in Hin.
  - apply elem_of_cons in Hin as [?|Hin]; [discriminate|]. by apply IH.
  - reflexivity.
Qed.

Lemma _format_lpf_ok (signame pin : string) (others : list constraint) (resname : string) :
  Forall (fun c => formattable c = true) others ->
  _format_lpf signame pin others resname = Ok (block signame pin others).
Proof.
  intros Hall. unfold _format_lpf.
  destruct (comprehension _format_constraint ([Pins [pin]] ++ others)) as [fmt|e] eqn:E.
  - apply comprehension_Forall2 in E. cbn [mbind result_bind].
    rewrite (_format_lpf_loop_ok signame ([Pins [pin]] ++ others) fmt ""); [|by constructor|done].
    reflexivity.
  - exfalso. assert (Forall (fun c => formattable c = true) ([Pins [pin]] ++ others)) as H
      by by constructor.
    clear Hall. induction H as [|c l Hc _ IH] in e, E |- *; [discriminate|].
    destruct (_format_constraint_formattable "" c Hc) as (pre & suf & Ec & _).
    simpl in E. rewrite Ec in E. simpl in E.
    destruct (comprehension _format_constraint l) eqn:El; [discriminate|]. eauto.
Qed.

(** ** Constraint file builder *)

Ltac rsimpl :=
  cbn [mbind mret fmap result_bind result_ret result_fmap] in *.

Lemma _build_lpf_bits_ok (sig : string) (others : list constraint) (resname : string)
    (i : nat) (pins : list string) (r : string) :
  Forall (fun c => formattable c = true) others ->
  _build_lpf_bits sig others resname i pins r
    = Ok (r +:+ str_concat (imap (fun j pin => block (bit_name sig (i + j)) pin others) pins)).
Proof.
  intros Hall. revert i r. induction pins as [|p pins IH]; intros i r.
  - simpl. by rewrite str_app_nil_r.
  - cbn [_build_lpf_bits]. fold (bit_name sig i).
    rewrite _format_lpf_ok by done. rsimpl. rewrite IH.
    cbn [imap str_concat foldr]. rewrite Nat.add_0_r, str_app_assoc.
    do 3 f_equal. unfold str_concat. f_equal.
    apply imap_ext. intros j pin _. simpl. do 2 f_equal. lia.
Qed.

Lemma _build_lpf_body_ok (entry : named_signal) (r : string) :
  well_formed_signal entry ->
  _build_lpf_body entry r = Ok (r +:+ signal_text entry).
Proof.
  destruct entry as [[[sig pins] others] resname]. intros [Hpins Hall].
  simpl in Hpins, Hall. unfold _build_lpf_body, signal_text.
  destruct pins as [|p [|q pins]]; [done| |].
  - simpl. rewrite _format_lpf_ok by done. reflexivity.
  - change (1 <? length (p :: q :: pins))%nat with true. cbv iota.
    by rewrite _build_lpf_bits_ok.
Qed.

Lemma _build_lpf_signals_app (a b : list named_signal) (r : string) :
  _build_lpf_signals (a ++ b) r = (r' ← _build_lpf_signals a r; _build_lpf_signals b r').
Proof.
  revert r. induction a as [|entry a IH]; intros r; [reflexivity|].
  simpl. destruct (_build_lpf_body entry r) as [r'|e]; rsimpl; [apply IH | reflexivity].
Qed.

Lemma _build_lpf_signals_ok (named_sc : list named_signal) (r : string) :
  Forall well_formed_signal named_sc ->
  _build_lpf_signals named_sc r = Ok (r +:+ str_concat (map signal_text named_sc)).
Proof.
  intros Hall. revert r. induction Hall as [|entry named_sc Hwf _ IH]; intros r.
  - simpl. by rewrite str_app_nil_r.
  - simpl. rewrite _build_lpf_body_ok by done. rsimpl. rewrite IH.
    by rewrite str_app_assoc.
Qed.

Lemma str_concat_app (a b : list string) :
  str_concat (a ++ b) = str_concat a +:+ str_concat b.
Proof.
  induction a as [|x a IH]; simpl; [reflexivity|]. by rewrite IH, str_app_assoc.
Qed.

(** The builder on well-formed input: header, the text of every signal in
    input order, the platform commands. *)
Lemma _build_lpf_ok (named_sc : list named_signal) (named_pc : list string) :
  Forall well_formed_signal named_sc ->
  _build_lpf named_sc named_pc
    = Ok (lpf_header +:+ str_concat (map signal_text named_sc)
          +:+ platform_commands_text named_pc).
Proof.
  intros Hall. unfold _build_lpf. rewrite _build_lpf_signals_ok by done. rsimpl.
  unfold lpf_header. destruct named_pc as [|c named_pc].
  - rewrite bool_decide_false by (intros H; by apply H).
    unfold platform_commands_text, mret, result_ret.
    by rewrite !str_app_assoc, !str_app_nil_r.
  - rewrite bool_decide_true by done.
    unfold platform_commands_text, mret, result_ret. by rewrite !str_app_assoc.
Qed.

Lemma _build_lpf_signals_failing (before after : list named_signal)
    (entry : named_signal) (r : string) :
  (forall r', is_ok (_build_lpf_body entry r') = false) ->
  is_ok (_build_lpf_signals (before ++ entry :: after) r) = false.
Proof.
  intros Hentry. rewrite _build_lpf_signals_app.
  destruct (_build_lpf_signals before r) as [r'|e]; [|reflexivity].
  rsimpl. cbn [_build_lpf_signals]. specialize (Hentry r').
  destruct (_build_lpf_body entry r'); [discriminate | reflexivity].
Qed.

Lemma _build_lpf_signals_raise (named_sc : list named_signal) (named_pc : list string) :
  is_ok (_build_lpf_signals named_sc lpf_header) = false ->
  is_ok (_build_lpf named_sc named_pc) = false.
Proof.
  unfold _build_lpf. fold lpf_header.
  replace (("BLOCK RESETPATHS;" +:+ nl) +:+ "BLOCK ASYNCPATHS;" +:+ nl)
    with lpf_header by reflexivity.
  destruct (_build_lpf_signals named_sc lpf_header); [discriminate | reflexivity].
Qed.

Lemma _build_lpf_body_no_pins (sig : string) (others : list constraint)
    (resname r : string) :
  _build_lpf_body (sig, [], others, resname) r = Raise IndexError.
Proof. reflexivity. Qed.

(** *** Recognized directives: the only error is the index error *)

Lemma _format_lpf_loop_Some (signame : string)
    (fmt_c : list (option (string * string))) (r : string) :
  Forall is_Some fmt_c -> exists s, _format_lpf_loop signame fmt_c r = Ok s.
Proof.
  intros Hall. revert r. induction Hall as [|y fmt_c [[pre suf] ->] _ IH]; intros r.
  - by exists r.
  - apply IH.
Qed.

Lemma comprehension_recognized (l : list constraint) :
  Forall (fun c => recognized c = true) l ->
  (exists fmt_c, comprehension _format_constraint l = Ok fmt_c /\ Forall is_Some fmt_c)
  \/ comprehension _format_constraint l = Raise IndexError.
Proof.
  induction 1 as [|c l Hc _ IH]; [left; by exists []|].
  cbn [comprehension].
  destruct (_format_constraint_recognized c Hc) as [[p ->]| ->]; [|by right].
  destruct IH as [(fmt_c & -> & Hall)| ->]; [left | by right].
  eexists. split; [reflexivity|]. constructor; eauto.
Qed.

Lemma _format_lpf_recognized (signame pin : string) (others : list constraint)
    (resname : string) :
  Forall (fun c => recognized c = true) others ->
  (exists s, _format_lpf signame pin others resname = Ok s)
  \/ _format_lpf signame pin others resname = Raise IndexError.
Proof.
  intros Hall. unfold _format_lpf.
  destruct (comprehension_recognized ([Pins [pin]] ++ others))
    as [(fmt_c & -> & Hsome)| ->]; [by constructor | | by right].
  left. rsimpl. by apply _format_lpf_loop_Some.
Qed.

Lemma _build_lpf_bits_recognized (sig : string) (others : list constraint)
    (resname : string) (i : nat) (pins : list string) (r : string) :
  Forall (fun c => recognized c = true) others ->
  (exists s, _build_lpf_bits sig others resname i pins r = Ok s)
  \/ _build_lpf_bits sig others resname i pins r = Raise IndexError.
Proof.
  intros Hall. revert i r. induction pins as [|p pins IH]; intros i r.
  - left. by exists r.
  - cbn [_build_lpf_bits].
    destruct (_format_lpf_recognized (sig +:+ "[" +:+ str_nat i +:+ "]") p others
                resname Hall) as [[s ->]| ->]; [apply IH | by right].
Qed.

Lemma _build_lpf_body_recognized (entry : named_signal) (r : string) :
  Forall (fun c => recognized c = true) (signal_others entry) ->
  (exists s, _build_lpf_body entry r = Ok s) \/ _build_lpf_body entry r = Raise IndexError.
Proof.
  destruct entry as [[[sig pins] others] resname]. cbn [signal_others]. intros Hall.
  unfold _build_lpf_body. destruct (1 <? length pins)%nat.
  - by apply _build_lpf_bits_recognized.
  - destruct pins as [|p pins]; [by right|]. cbn [list_get lookup list_lookup]. rsimpl.
    destruct (_format_lpf_recognized sig p others resname Hall) as [[s ->]| ->];
      [left; by eexists | by right].
Qed.

Lemma _build_lpf_signals_recognized (named_sc : list named_signal) (r : string) :
  Forall (fun entry => Forall (fun c => recognized c = true) (signal_others entry))
         named_sc ->
  (exists s, _build_lpf_signals named_sc r = Ok s)
  \/ _build_lpf_signals named_sc r = Raise IndexError.
Proof.
  intros Hall. revert r. induction Hall as [|entry named_sc Hentry _ IH]; intros r.
  - left. by exists r.
  - cbn [_build_lpf_signals].
    destruct (_build_lpf_body_recognized entry r Hentry) as [[s ->]| ->];
      [apply IH | by right].
Qed.

(** *** Unrecognized directives *)

Lemma _format_constraint_total (c : constraint) :
  c <> Pins [] -> exists y, _format_constraint c = Ok y.
Proof.
  destruct c as [[|pin ids]|name|misc|cls]; intros Hc; [done|..]; eexists; reflexivity.
Qed.

Lemma comprehension_total {A B} (f : A -> result B) (l : list A) :
  Forall (fun x => exists y, f x = Ok y) l -> exists ys, comprehension f l = Ok ys.
Proof.
  induction 1 as [|x l [y Hy] _ [ys Hys]]; [by exists []|].
  exists (y :: ys). simpl. by rewrite Hy, Hys.
Qed.

Lemma _format_lpf_unrecognized (c : constraint) (signame pin : string)
    (others : list constraint) (resname : string) :
  recognized c = false -> c ∈ others ->
  is_ok (_format_lpf signame pin others resname) = false /\
  (Forall (fun d => d <> Pins []) others ->
   _format_lpf signame pin others resname = Raise TypeError).
Proof.
  intros Hc Hin. unfold _format_lpf.
  assert (forall fmt_c, comprehension _format_constraint ([Pins [pin]] ++ others) = Ok fmt_c ->
                        None ∈ fmt_c) as Hnone.
  { intros fmt_c E. apply comprehension_Forall2 in E.
    assert (c ∈ ([Pins [pin]] ++ others)%list) as Hin' by set_solver.
    apply list_elem_of_lookup in Hin' as [i Hi].
    destruct (Forall2_lookup_l _ _ _ _ _ E Hi) as (y & Hy & Hcy).
    rewrite (_format_constraint_unrecognized c Hc) in Hcy. injection Hcy as <-.
    apply list_elem_of_lookup. eauto. }
  split.
  - destruct (comprehension _format_constraint ([Pins [pin]] ++ others)) as [fmt_c|e];
      [|reflexivity].
    rsimpl. by rewrite _format_lpf_loop_None by eauto.
  - intros Hall.
    destruct (comprehension_total _format_constraint ([Pins [pin]] ++ others))
      as [fmt_c E].
    { constructor; [by eexists|].
      eapply Forall_impl; [exact Hall|]. apply _format_constraint_total. }
    rewrite E. rsimpl. apply _format_lpf_loop_None. eauto.
Qed.

Lemma _build_lpf_body_unrecognized (c : constraint) (entry : named_signal) (r : string) :
  recognized c = false -> c ∈ signal_others entry ->
  is_ok (_build_lpf_body entry r) = false.
Proof.
  destruct entry as [[[sig pins] others] resname]. cbn [signal_others]. intros Hc Hin.
  unfold _build_lpf_body. destruct pins as [|p [|q pins]]; [reflexivity| |].
  - cbn [length Nat.ltb Nat.leb list_get lookup list_lookup]. rsimpl.
    destruct (_format_lpf_unrecognized c sig p others resname Hc Hin) as [H _].
    destruct (_format_lpf sig p others resname); [discriminate | reflexivity].
  - change (1 <? length (p :: q :: pins))%nat with true. cbv iota.
    cbn [_build_lpf_bits].
    destruct (_format_lpf_unrecognized c (sig +:+ "[" +:+ str_nat 0 +:+ "]") p others
                resname Hc Hin) as [H _].
    destruct (_format_lpf (sig +:+ "[" +:+ str_nat 0 +:+ "]") p others resname);
      [discriminate | reflexivity].
Qed.

(** C4, as the code has it.  For a directive that is none of the three
    recognized variants, [_format_constraint] raises nothing: it falls
    through and returns [None].  The error surfaces in the callers:
    [_format_lpf] never returns for a signal whose extra directives contain
    such a value (it raises [TypeError] on unpacking the [None], unless a pin
    assignment without identifiers among the extra directives has raised
    first), and [_build_lpf] never returns a constraint file for an input
    that contains one. *)
Theorem unrecognized_directive_surfaces_in_caller (c : constraint) :
  recognized c = false ->
  _format_constraint c = Ok None /\
  (forall (signame pin : string) (others : list constraint) (resname : string),
     c ∈ others ->
     is_ok (_format_lpf signame pin others resname) = false /\
     (Forall (fun d => d <> Pins []) others ->
      _format_lpf signame pin others resname = Raise TypeError)) /\
  (forall (named_sc : list named_signal) (named_pc : list string) (entry : named_signal),
     entry ∈ named_sc -> c ∈ signal_others entry ->
     is_ok (_build_lpf named_sc named_pc) = false).
Proof.
  intros Hc. split; [by apply _format_constraint_unrecognized|]. split.
  - intros. by apply (_format_lpf_unrecognized c).
  - intros named_sc named_pc entry Hentry Hin.
    apply list_elem_of_split in Hentry as (before & after & ->).
    apply _build_lpf_signals_raise. apply _build_lpf_signals_failing.
    intros r'. by apply (_build_lpf_body_unrecognized c).
Qed.

Lemma unrecognized_directive_surfaces_in_caller_witness :
  _format_constraint (OtherDirective "Drive") = Ok None /\
  _format_lpf "led" "B1" [IOStandard "LVCMOS33"; OtherDirective "Drive"] "user_led"
    = Raise TypeError /\
  is_ok (_build_lpf [("led", ["B1"], [IOStandard "LVCMOS33"; OtherDirective "Drive"],
                      "user_led")] []) = false.
Proof.
  destruct (unrecognized_directive_surfaces_in_caller (OtherDirective "Drive"))
    as (Hnone & Hlpf & Hbuild); [reflexivity|].
  split; [exact Hnone|]. split.
  - apply (Hlpf "led" "B1" [IOStandard "LVCMOS33"; OtherDirective "Drive"] "user_led").
    + apply list_elem_of_In. simpl. auto.
    + repeat constructor; discriminate.
  - apply (Hbuild _ [] ("led", ["B1"], [IOStandard "LVCMOS33"; OtherDirective "Drive"],
                        "user_led")).
    + apply list_elem_of_In. simpl. auto.
    + apply list_elem_of_In. simpl. auto.
Defined.

(** C4, as the claim states it, fails: formatting a directive that is none
    of the three recognized variants raises nothing in the formatter, which
    returns [None]. *)
Lemma unrecognized_directive_not_raised :
  recognized (OtherDirective "Drive") = false /\
  _format_constraint (OtherDirective "Drive") = Ok None /\
  ~ (exists e, _format_constraint (OtherDirective "Drive") = Raise e).
Proof.
  split; [reflexivity|]. split; [reflexivity|]. intros [e H]. discriminate.
Qed.

(** C6. For the single scalar signal [clk] on pin [A1] with the one extra
    I/O-standard directive [LVCMOS33] and no platform command, the builder
    returns the two header lines followed by the [LOCATE] line and the
    [IOBUF] line of [clk], whatever the resource name. *)
Theorem scalar_clk_constraint_file (resname : string) :
  _build_lpf [("clk", ["A1"], [IOStandard "LVCMOS33"], resname)] [] =
  Ok ("BLOCK RESETPATHS;" +:+ nl +:+
      "BLOCK ASYNCPATHS;" +:+ nl +:+
      "LOCATE COMP " +:+ dquote +:+ "clk" +:+ dquote +:+ " SITE "
        +:+ dquote +:+ "A1" +:+ dquote +:+ ";" +:+ nl +:+
      "IOBUF PORT " +:+ dquote +:+ "clk" +:+ dquote +:+ " IO_TYPE=LVCMOS33;" +:+ nl).
Proof. vm_compute. reflexivity. Qed.

Lemma extra_directive_formattable (c : constraint) :
  extra_directive c = true -> formattable c = true.
Proof. by destruct c as [[|pin ids]|name|misc|cls]. Qed.

Lemma extra_directive_not_locate (signame : string) (c : constraint) :
  extra_directive c = true -> is_locate_clause (directive_clause signame c) = false.
Proof. destruct c as [ids|name|misc|cls]; intros Hc; try discriminate; reflexivity. Qed.

Lemma block_clauses_one_locate (signame pin : string) (others : list constraint) :
  Forall (fun c => extra_directive c = true) others ->
  length (List.filter is_locate_clause (block_clauses signame pin others)) = 1.
Proof.
  intros Hall. unfold block_clauses. cbn [List.filter].
  change (is_locate_clause (locate_clause signame pin)) with true. cbv iota.
  cbn [length]. f_equal.
  induction Hall as [|c others Hc _ IH]; [reflexivity|].
  cbn [map List.filter]. by rewrite (extra_directive_not_locate signame c Hc).
Qed.

Lemma map_str_concat_imap {A} (f : nat -> A -> list string) (l : list A) :
  map str_concat (imap f l) = imap (fun i x => str_concat (f i x)) l.
Proof. revert f. induction l as [|x l IH]; intros f; simpl; [done | by rewrite IH]. Qed.

(** C7. A signal with N > 1 pins contributes exactly N blocks to the
    constraint file, block [i] named [sig[i]] and placed on pin [i], in
    ascending index order; each block is exactly one [LOCATE] clause followed
    by one clause per extra directive in input order.  The extra directives
    are I/O-standard and misc assignments, and the signals around the bus
    are well formed. *)
Theorem bus_expansion (before after : list named_signal) (sig : string)
    (pins : list string) (others : list constraint) (resname : string)
    (named_pc : list string) :
  1 < length pins ->
  Forall (fun c => extra_directive c = true) others ->
  Forall well_formed_signal before ->
  Forall well_formed_signal after ->
  exists blocks : list (list string),
    length blocks = length pins /\
    (forall i pin, pins !! i = Some pin ->
       blocks !! i = Some (locate_clause (bit_name sig i) pin
                           :: map (directive_clause (bit_name sig i)) others)) /\
    (forall clauses, clauses ∈ blocks ->
       length (List.filter is_locate_clause clauses) = 1) /\
    _build_lpf (before ++ (sig, pins, others, resname) :: after) named_pc
      = Ok (lpf_header
            +:+ str_concat (map signal_text before)
            +:+ str_concat (map str_concat blocks)
            +:+ str_concat (map signal_text after)
            +:+ platform_commands_text named_pc).
Proof.
  intros Hlen Hextra Hbefore Hafter.
  assert (Forall (fun c => formattable c = true) others) as Hothers.
  { eapply Forall_impl; [exact Hextra|]. apply extra_directive_formattable. }
  exists (imap (fun i pin => block_clauses (bit_name sig i) pin others) pins).
  split; [apply length_imap|]. split; [|split].
  - intros i pin Hi. by rewrite list_lookup_imap, Hi.
  - intros clauses Hin. apply elem_of_lookup_imap_1 in Hin as (i & pin & -> & _).
    by apply block_clauses_one_locate.
  - rewrite _build_lpf_ok.
    + rewrite map_app, str_concat_app. cbn [map str_concat foldr].
      fold (str_concat (map signal_text after)).
      destruct pins as [|p [|q pins]]; [simpl in Hlen; lia..|].
      cbn [signal_text]. unfold bus_blocks.
      rewrite map_str_concat_imap. by rewrite !str_app_assoc.
    + apply Forall_app. split; [done|]. constructor; [|done].
      split; [|done]. cbn [signal_pins]. intros ->. simpl in Hlen. lia.
Qed.

Lemma bus_expansion_witness :
  exists blocks : list (list string),
    length blocks = 2 /\
    (forall i pin, ["B1"; "B2"] !! i = Some pin ->
       blocks !! i = Some (locate_clause (bit_name "led" i) pin
                           :: map (directive_clause (bit_name "led" i))
                                  [IOStandard "LVCMOS25"; Misc "DRIVE=4"])) /\
    (forall clauses, clauses ∈ blocks ->
       length (List.filter is_locate_clause clauses) = 1) /\
    _build_lpf sample_signals []
      = Ok (lpf_header
            +:+ str_concat (map signal_text
                  [("clk", ["A1"], [IOStandard "LVCMOS33"], "clk100")])
            +:+ str_concat (map str_concat blocks)
            +:+ str_concat (map signal_text [])
            +:+ platform_commands_text []).
Proof.
  apply (bus_expansion [("clk", ["A1"], [IOStandard "LVCMOS33"], "clk100")] []
           "led" ["B1"; "B2"] [IOStandard "LVCMOS25"; Misc "DRIVE=4"] "user_led" []).
  - simpl. lia.
  - repeat constructor.
  - repeat constructor. discriminate.
  - constructor.
Defined.

Example bus_expansion_text :
  _build_lpf [("led", ["B1"; "B2"], [Misc "DRIVE=4"], "user_led")] [] =
  Ok ("BLOCK RESETPATHS;" +:+ nl +:+
      "BLOCK ASYNCPATHS;" +:+ nl +:+
      "LOCATE COMP " +:+ dquote +:+ "led[0]" +:+ dquote +:+ " SITE "
        +:+ dquote +:+ "B1" +:+ dquote +:+ ";" +:+ nl +:+
      "IOBUF PORT " +:+ dquote +:+ "led[0]" +:+ dquote +:+ " DRIVE=4;" +:+ nl +:+
      "LOCATE COMP " +:+ dquote +:+ "led[1]" +:+ dquote +:+ " SITE "
        +:+ dquote +:+ "B2" +:+ dquote +:+ ";" +:+ nl +:+
      "IOBUF PORT " +:+ dquote +:+ "led[1]" +:+ dquote +:+ " DRIVE=4;" +:+ nl).
Proof. vm_compute. reflexivity. Qed.

(** ** The resource name does not reach the constraint file *)

Lemma _build_lpf_bits_resname (sig : string) (others : list constraint)
    (resname resname' : string) (i : nat) (pins : list string) (r : string) :
  _build_lpf_bits sig others resname i pins r
  = _build_lpf_bits sig others resname' i pins r.
Proof.
  revert i r. induction pins as [|p pins IH]; intros i r; [reflexivity|].
  cbn [_build_lpf_bits]. unfold _format_lpf.
  destruct (comprehension _format_constraint ([Pins [p]] ++ others)); [|reflexivity].
  rsimpl. destruct (_format_lpf_loop _ _ _); [apply IH | reflexivity].
Qed.

Lemma _build_lpf_body_resname (a b : named_signal) (r : string) :
  same_up_to_resname a b -> _build_lpf_body a r = _build_lpf_body b r.
Proof.
  destruct a as [[[sig pins] others] resname], b as [[[sig' pins'] others'] resname'].
  intros (<- & <- & <-). unfold _build_lpf_body.
  destruct (1 <? length pins)%nat; [apply _build_lpf_bits_resname | reflexivity].
Qed.

(** C9. Two inputs that differ only in the resource names of their named
    signal constraints give the same result, be it a constraint file or an
    exception. *)
Theorem resname_independence (named_sc named_sc' : list named_signal)
    (named_pc : list string) :
  Forall2 same_up_to_resname named_sc named_sc' ->
  _build_lpf named_sc named_pc = _build_lpf named_sc' named_pc.
Proof.
  intros H. unfold _build_lpf. f_equal.
  generalize (("BLOCK RESETPATHS;" +:+ nl) +:+ "BLOCK ASYNCPATHS;" +:+ nl).
  induction H as [|a b named_sc named_sc' Hab _ IH]; intros r; [reflexivity|].
  cbn [_build_lpf_signals]. rewrite (_build_lpf_body_resname a b r Hab).
  destruct (_build_lpf_body b r); rsimpl; [apply IH | reflexivity].
Qed.

Lemma resname_independence_witness :
  _build_lpf [("clk", ["A1"], [IOStandard "LVCMOS33"], "clk100");
              ("led", ["B1"; "B2"], [Misc "DRIVE=4"], "user_led")] ["SYSCONFIG;"]
  = _build_lpf [("clk", ["A1"], [IOStandard "LVCMOS33"], "");
                ("led", ["B1"; "B2"], [Misc "DRIVE=4"], "serial")] ["SYSCONFIG;"].
Proof.
  apply resname_independence. repeat constructor.
Defined.

(** C10. The builder returns a constraint file only when every named signal
    has at least one pin: for an input with a signal whose pin sequence is
    empty it never returns, and what it raises is the index error of
    [pins[0]] (the directives of the signals before it being of the three
    recognized variants). *)
Theorem empty_pins_index_error (before after : list named_signal) (sig : string)
    (others : list constraint) (resname : string) (named_pc : list string) :
  is_ok (_build_lpf (before ++ (sig, [], others, resname) :: after) named_pc) = false /\
  (Forall (fun entry => Forall (fun c => recognized c = true) (signal_others entry))
          before ->
   _build_lpf (before ++ (sig, [], others, resname) :: after) named_pc
     = Raise IndexError).
Proof.
  split.
  - apply _build_lpf_signals_raise. apply _build_lpf_signals_failing.
    intros r'. by rewrite _build_lpf_body_no_pins.
  - intros Hbefore. unfold _build_lpf. rewrite _build_lpf_signals_app.
    destruct (_build_lpf_signals_recognized before
                (("BLOCK RESETPATHS;" +:+ nl) +:+ "BLOCK ASYNCPATHS;" +:+ nl) Hbefore)
      as [[s ->]| ->]; reflexivity.
Qed.

Lemma empty_pins_index_error_witness :
  is_ok (_build_lpf [("clk", ["A1"], [IOStandard "LVCMOS33"], "clk100");
                     ("rst", [], [], "cpu_reset")] []) = false /\
  _build_lpf [("clk", ["A1"], [IOStandard "LVCMOS33"], "clk100");
              ("rst", [], [], "cpu_reset")] [] = Raise IndexError.
Proof.
  destruct (empty_pins_index_error
              [("clk", ["A1"], [IOStandard "LVCMOS33"], "clk100")] []
              "rst" [] "cpu_reset" []) as [Hraise Hindex].
  split; [exact Hraise|]. apply Hindex. repeat constructor.
Defined.

(** ** Script assembler *)

Lemma fmap_append_Ok (a : string) (x : result string) (r : string) :
  String.append a <$> x = Ok r -> exists r0, x = Ok r0 /\ r = a +:+ r0.
Proof. destruct x as [r0|e]; intros [= <-]; eauto. Qed.

Lemma fmap_cons_Ok (c : ascii) (x : result string) (r : string) :
  String c <$> x = Ok r -> exists r0, x = Ok r0 /\ r = String c r0.
Proof. destruct x as [r0|e]; intros [= <-]; eauto. Qed.

Lemma fmap_append_append (a b : string) (x : result string) :
  String.append a <$> (String.append b <$> x) = String.append (a +:+ b) <$> x.
Proof. destruct x; rsimpl; [by rewrite str_app_assoc | reflexivity]. Qed.

(** A template that renders on its own leaves the formatter in literal
    text: what follows it is rendered independently. *)
Lemma format_go_app (kw : gmap string string) (s t : string) (st : fmt_state)
    (r : string) :
  format_go kw s st = Ok r ->
  format_go kw (s +:+ t) st = String.append r <$> format_go kw t FText.
Proof.
  revert st r. induction s as [|c s IH]; intros st r.
  - destruct st; intros [= <-]. simpl. by destruct (format_go kw t FText).
  - cbn [String.append format_go]. destruct st as [| | |name].
    + destruct (Ascii.eqb c "{"); [apply IH|].
      destruct (Ascii.eqb c "}"); [apply IH|].
      intros (r0 & H0 & ->)%fmap_cons_Ok. rewrite (IH _ _ H0).
      by destruct (format_go kw t FText).
    + destruct (Ascii.eqb c "{").
      { intros (r0 & H0 & ->)%fmap_cons_Ok. rewrite (IH _ _ H0).
        by destruct (format_go kw t FText). }
      destruct (Ascii.eqb c "}"); [discriminate|].
      destruct (field_special c); [discriminate | apply IH].
    + destruct (Ascii.eqb c "}"); [|discriminate].
      intros (r0 & H0 & ->)%fmap_cons_Ok. rewrite (IH _ _ H0).
      by destruct (format_go kw t FText).
    + destruct (Ascii.eqb c "}").
      { destruct (field_value kw name) as [v|e]; [|discriminate]. rsimpl.
        intros (r0 & H0 & ->)%fmap_append_Ok. rewrite (IH _ _ H0).
        apply fmap_append_append. }
      destruct (field_special c); [discriminate | apply IH].
Qed.

Lemma format_fail_stmt (kw : gmap string string) (v : string) :
  kw !! "fail_stmt" = Some v ->
  format_go kw ("{fail_stmt}" +:+ nl) FText = Ok (v +:+ nl).
Proof.
  intros H.
  assert (field_value kw "fail_stmt" = Ok v) as Hv
    by (unfold field_value, dict_get; by rewrite H).
  cbv -[field_value]. rewrite Hv. reflexivity.
Qed.

Lemma str_format_with_sentinel (kw : gmap string string) (s line v : string) :
  kw !! "fail_stmt" = Some v ->
  str_format s kw = Ok line ->
  str_format (s +:+ "{fail_stmt}" +:+ nl) kw = Ok (line +:+ v +:+ nl).
Proof.
  intros Hv Hs. unfold str_format in *.
  rewrite (format_go_app _ _ _ _ _ Hs), (format_fail_stmt _ _ Hv). reflexivity.
Qed.

Lemma _build_script_loop_ok (kw : gmap string string) (v : string)
    (build_template lines : list string) (contents : string) :
  kw !! "fail_stmt" = Some v ->
  Forall2 (fun s line => str_format s kw = Ok line) build_template lines ->
  _build_script_loop kw build_template contents
    = Ok (contents +:+ str_concat (map (fun line => line +:+ v +:+ nl) lines)).
Proof.
  intros Hv H. revert contents.
  induction H as [|s line build_template lines Hs _ IH]; intros contents.
  - simpl. by rewrite str_app_nil_r.
  - cbn [_build_script_loop]. rewrite (str_format_with_sentinel _ _ _ _ Hv Hs).
    rsimpl. rewrite IH. cbn [map str_concat foldr]. by rewrite str_app_assoc.
Qed.

Lemma script_kwargs_fail_stmt (h : host) (build_name architecture package
    freq_constraint : string) (timingstrict : bool) :
  script_kwargs h build_name architecture package freq_constraint timingstrict
    !! "fail_stmt" = Some (fail_stmt h).
Proof. reflexivity. Qed.

Ltac msimpl :=
  unfold mbind, M_bind, mret, M_ret, lift, get_world, put_world; cbn beta iota.

(** C8. When the command templates render, the build script is the dialect's
    header followed, in template order, by each rendered command line with
    the dialect's fail sentinel and a line feed right after it: the sentinel
    is [ || exit /b] and the extension [.bat] on win32 and cygwin, the
    sentinel is empty and the extension [.sh] elsewhere, where the header
    has the line [set -e].  The script is written to the file
    [build_] + [build_name] + extension, whose name is returned. *)
Theorem build_script_layout (h : host) (source : bool)
    (build_template lines : list string)
    (build_name architecture package freq_constraint : string)
    (timingstrict : bool) (w : world) :
  Forall2 (fun s line =>
             str_format s (script_kwargs h build_name architecture package
                             freq_constraint timingstrict) = Ok line)
          build_template lines ->
  exists w',
    _build_script h source build_template build_name architecture package
                  freq_constraint timingstrict w
      = (Ok ("build_" +:+ build_name +:+ script_ext h), w') /\
    files w' = files w ++
      [(path_join (cwd w) ("build_" +:+ build_name +:+ script_ext h),
        script_header h +:+ str_concat (map (script_line h) lines))] /\
    cwd w' = cwd w /\ calls w' = calls w /\
    (is_windows h = true <-> sys_platform h = "win32" \/ sys_platform h = "cygwin") /\
    (if is_windows h
     then fail_stmt h = " || exit /b" /\ script_ext h = ".bat"
     else fail_stmt h = "" /\ script_ext h = ".sh" /\
          occurs_in ("set -e" +:+ nl) (script_header h)).
Proof.
  intros Hlines. eexists. split; [|split; [|split; [|split; [|split]]]].
  - unfold _build_script. msimpl.
    rewrite (_build_script_loop_ok _ (fail_stmt h) _ lines);
      [|apply script_kwargs_fail_stmt|exact Hlines].
    unfold write_to_file. msimpl. reflexivity.
  - reflexivity.
  - reflexivity.
  - reflexivity.
  - unfold is_windows. rewrite bool_decide_eq_true, !elem_of_cons, elem_of_nil. tauto.
  - unfold fail_stmt, script_ext, script_header. destruct (is_windows h); [done|].
    split; [done|]. split; [done|].
    exists ("# Autogenerated by LiteX / git: " +:+ litex_git_revision h +:+ nl), "".
    by rewrite !str_app_assoc, str_app_nil_r.
Qed.

Lemma build_script_layout_witness :
  exists w',
    _build_script windows_host false (build_template __init__) "top" "25k"
                  "CSFBGA285" "0.0" false (sample_world "lfe5u-25f-csfbga285")
      = (Ok ("build_" +:+ "top" +:+ script_ext windows_host), w') /\
    files w' = files (sample_world "lfe5u-25f-csfbga285") ++
      [(path_join (cwd (sample_world "lfe5u-25f-csfbga285"))
                  ("build_" +:+ "top" +:+ script_ext windows_host),
        script_header windows_host
        +:+ str_concat (map (script_line windows_host) sample_rendered))] /\
    cwd w' = cwd (sample_world "lfe5u-25f-csfbga285") /\
    calls w' = calls (sample_world "lfe5u-25f-csfbga285") /\
    (is_windows windows_host = true <->
       sys_platform windows_host = "win32" \/ sys_platform windows_host = "cygwin") /\
    (if is_windows windows_host
     then fail_stmt windows_host = " || exit /b" /\ script_ext windows_host = ".bat"
     else fail_stmt windows_host = "" /\ script_ext windows_host = ".sh" /\
          occurs_in ("set -e" +:+ nl) (script_header windows_host)).
Proof.
  apply (build_script_layout windows_host false (build_template __init__)
           sample_rendered "top" "25k" "CSFBGA285" "0.0" false
           (sample_world "lfe5u-25f-csfbga285")).
  repeat constructor; vm_compute; reflexivity.
Defined.

Example build_script_posix :
  (_build_script (posix_host 0) false (build_template __init__) "top" "25k"
                 "CSFBGA285" "0.0" false (sample_world "lfe5u-25f-csfbga285")).1
    = Ok "build_top.sh" /\
  files (_build_script (posix_host 0) false (build_template __init__) "top" "25k"
                 "CSFBGA285" "0.0" false (sample_world "lfe5u-25f-csfbga285")).2
    = [("/home/user/design/build_top.sh",
        "# Autogenerated by LiteX / git: 9c9b6c2" +:+ nl +:+
        "set -e" +:+ nl +:+
        "yosys -q -l top.rpt top.ys" +:+ nl +:+
        "nextpnr-ecp5 --json top.json --lpf top.lpf --textcfg top.config --25k --package CSFBGA285 --freq 0.0 --timing-allow-fail" +:+ nl +:+
        "ecppack top.config --svf top.svf --bit top.bit" +:+ nl)].
Proof. split; vm_compute; reflexivity. Qed.

Example build_script_windows :
  files (_build_script windows_host false (build_template __init__) "top" "25k"
                 "CSFBGA285" "0.0" true (sample_world "lfe5u-25f-csfbga285")).2
    = [("/home/user/design/build_top.bat",
        "@echo off" +:+ nl +:+
        "rem Autogenerated by LiteX / git: 9c9b6c2" +:+ nl +:+ nl +:+
        "yosys -q -l top.rpt top.ys || exit /b" +:+ nl +:+
        "nextpnr-ecp5 --json top.json --lpf top.lpf --textcfg top.config --25k --package CSFBGA285 --freq 0.0  || exit /b" +:+ nl +:+
        "ecppack top.config --svf top.svf --bit top.bit || exit /b" +:+ nl)].
Proof. vm_compute. reflexivity. Qed.

(** ** Build driver *)

Ltac world_simpl := cbn [cwd dirs files calls self_obj platform_obj].

Ltac unfold_build :=
  unfold build, _build_script, _run_script, subprocess_call, add_source,
    set_platform, write_to_file, os_chdir, os_makedirs, os_getcwd,
    mbind, M_bind, mret, M_ret, lift, get_world, put_world;
  cbn [cwd dirs files calls self_obj platform_obj].

(** Where a build leaves the process: on success in the directory the final
    [os.chdir(cwd)] leads to, on every failure in the build directory. *)
Lemma build_cwd (h : host) (build_dir build_name : string)
    (run nowidelut timingstrict : bool) (w : world) :
  match build h build_dir build_name run nowidelut timingstrict w with
  | (Ok _, w') => cwd w' = path_join (path_join (cwd w) build_dir) (cwd w)
  | (Raise _, w') => cwd w' = path_join (cwd w) build_dir
  end.
Proof.
  unfold_build.
  destruct (resolve_signals _ _) as [named_sc named_pc].
  destruct (_build_lpf named_sc named_pc) as [lpf|e]; [|reflexivity].
  destruct (comprehension _ _) as [yosys_lines|e]; [|reflexivity].
  destruct (resolve_device _) as [[architecture package]|e]; [|reflexivity].
  destruct (_build_script_loop _ _ _) as [contents|e]; [|reflexivity].
  destruct run; [|reflexivity].
  destruct (bool_decide _); reflexivity.
Qed.

Lemma build_success_restores_cwd (h : host) (build_dir build_name : string)
    (run nowidelut timingstrict : bool) (w w' : world) (names : list string) :
  String.prefix "/" (cwd w) = true ->
  build h build_dir build_name run nowidelut timingstrict w = (Ok names, w') ->
  cwd w' = cwd w.
Proof.
  intros Habs Hb.
  pose proof (build_cwd h build_dir build_name run nowidelut timingstrict w) as H.
  rewrite Hb in H. rewrite H. unfold path_join at 1. by rewrite Habs.
Qed.

Lemma build_failure_stays_in_build_dir (h : host) (build_dir build_name : string)
    (run nowidelut timingstrict : bool) (w w' : world) (e : exn) :
  build h build_dir build_name run nowidelut timingstrict w = (Raise e, w') ->
  cwd w' = path_join (cwd w) build_dir.
Proof.
  intros Hb.
  pose proof (build_cwd h build_dir build_name run nowidelut timingstrict w) as H.
  by rewrite Hb in H.
Qed.

(** C1, at a build whose script exits with status 1: [build] raises the
    [OSError] of [_run_script] and the process is left in the build
    directory [/home/user/design/build], not in the directory
    [/home/user/design] it was entered from. *)
Theorem tool_failure_leaves_build_dir :
  let w := sample_world "lfe5u-25f-csfbga285" in
  let outcome := build (posix_host 1) "build" "top" true false false w in
  outcome.1 = Raise (OSError "Subprocess failed") /\
  calls outcome.2 = [["bash"; "build_top.sh"]] /\
  cwd w = "/home/user/design" /\
  cwd outcome.2 = "/home/user/design/build" /\
  cwd outcome.2 <> cwd w.
Proof. vm_compute. repeat split; discriminate. Qed.

(** The same build with a script that exits with status 0 returns to the
    directory it was entered from. *)
Example tool_success_restores_cwd :
  let w := sample_world "lfe5u-25f-csfbga285" in
  let outcome := build (posix_host 0) "build" "top" true false false w in
  outcome.1 = Ok ["clk"; "led"] /\ cwd outcome.2 = cwd w.
Proof. vm_compute. split; reflexivity. Qed.

(** ** Frequency constraint *)

Lemma add_period_constraint_self (h : host) (clk : string) (period : float)
    (w : world) :
  self_obj (add_period_constraint h clk period w).2 = self_obj w.
Proof.
  unfold add_period_constraint, add_platform_command, set_platform. msimpl.
  destruct (PrimFloat.eqb period 0); [reflexivity|].
  destruct (str_format _ _); reflexivity.
Qed.

(** Registering period constraints never changes the frequency constraint
    of the builds that follow. *)
Lemma add_period_constraint_freq (h : host) (clk : string) (period : float)
    (w : world) :
  build_freq_constraint h (self_obj (add_period_constraint h clk period w).2)
  = build_freq_constraint h (self_obj w).
Proof. by rewrite add_period_constraint_self. Qed.

Lemma build_freq_constraint_fresh (h : host) :
  build_freq_constraint h __init__ = "0.0".
Proof. reflexivity. Qed.

(** C2, at one registration: after [add_period_constraint] for [clk] with a
    period of 10 ns on a fresh toolchain, the platform holds the 100 MHz
    directive, the toolchain's [freq_constraints] is still empty, and the
    frequency constraint of the following build is [0.0], not [100.0]. *)
Theorem registered_period_not_used :
  let h := posix_host 0 in
  let w := sample_world "lfe5u-25f-csfbga285" in
  let registered := add_period_constraint h "clk" 10 w in
  let built := build h "build" "top" false false false registered.2 in
  registered.1 = Ok () /\
  commands (platform_obj registered.2) =
    [("FREQUENCY PORT " +:+ dquote +:+ "{clk}" +:+ dquote +:+ " 100.0 MHz;", "clk")] /\
  freq_constraints (self_obj registered.2) = ∅ /\
  str_float h (1 / 10 * 1000) = "100.0" /\
  build_freq_constraint h (self_obj registered.2) = "0.0" /\
  last (files built.2) = Some
    ("/home/user/design/build/build_top.sh",
     "# Autogenerated by LiteX / git: 9c9b6c2" +:+ nl +:+
     "set -e" +:+ nl +:+
     "yosys -q -l top.rpt top.ys" +:+ nl +:+
     "nextpnr-ecp5 --json top.json --lpf top.lpf --textcfg top.config --25k --package CSFBGA285 --freq 0.0 --timing-allow-fail" +:+ nl +:+
     "ecppack top.config --svf top.svf --bit top.bit" +:+ nl).
Proof. vm_compute. repeat split; reflexivity. Qed.

(** ** Unknown package *)

(** C3, as the code has it.  For a device identifier [family-size-package]
    whose family and size are in the architecture table and whose package
    part contains none of the markers, a build whose constraint file and
    synthesis script can be generated fails with the unknown-package error.
    The build script is not written and no tool is run; the Verilog top
    file, the constraint file and the synthesis script have been written
    by then. *)
Theorem unknown_package_after_artifacts (h : host) (build_dir build_name : string)
    (run nowidelut timingstrict : bool) (w : world)
    (family size package architecture : string)
    (named_sc : list named_signal) (named_pc : list string)
    (lpf : string) (yosys_lines : list string) :
  device (platform_obj w) = device_id family size package ->
  ~ occurs_in "-" family -> ~ occurs_in "-" size -> ~ occurs_in "-" package ->
  nextpnr_ecp5_architectures !! str_lower (family +:+ "-" +:+ size) = Some architecture ->
  (forall marker name, (marker, name) ∈ package_markers -> ~ occurs_in marker package) ->
  resolve_signals (platform_obj w) (ns (get_verilog (platform_obj w) build_name))
    = (named_sc, named_pc) ->
  _build_lpf named_sc named_pc = Ok lpf ->
  comprehension
    (fun t => str_format t
       (yosys_kwargs (platform_add_source (platform_obj w) (build_name +:+ ".v"))
                     build_name nowidelut))
    (yosys_template (self_obj w)) = Ok yosys_lines ->
  exists w',
    build h build_dir build_name run nowidelut timingstrict w
      = (Raise UnknownPackage, w') /\
    files w' = files w ++
      [(path_join (path_join (cwd w) build_dir) (build_name +:+ ".v"),
        verilog (get_verilog (platform_obj w) build_name));
       (path_join (path_join (cwd w) build_dir) (build_name +:+ ".lpf"), lpf);
       (path_join (path_join (cwd w) build_dir) (build_name +:+ ".ys"),
        str_join nl yosys_lines)] /\
    calls w' = calls w.
Proof.
  intros Hdev Hf Hs Hp Harch Hnone Hres Hlpf Hys.
  assert (resolve_device (device (platform_obj w)) = Raise UnknownPackage) as Hdevice.
  { rewrite Hdev, resolve_device_parts by assumption.
    unfold dict_get. rewrite Harch. rsimpl.
    by rewrite nextpnr_ecp5_package_unknown. }
  eexists. split; [|split].
  - unfold_build. rewrite Hres. world_simpl. rewrite Hlpf. world_simpl.
    rewrite Hys. world_simpl. cbn [platform_add_source device].
    rewrite Hdevice. reflexivity.
  - cbn [files]. by rewrite <- !app_assoc.
  - reflexivity.
Qed.

Lemma unknown_package_after_artifacts_witness :
  exists w',
    build (posix_host 0) "build" "top" true false false
          (sample_world "lfe5u-25f-xyz999")
      = (Raise UnknownPackage, w') /\
    files w' = files (sample_world "lfe5u-25f-xyz999") ++
      [(path_join (path_join (cwd (sample_world "lfe5u-25f-xyz999")) "build")
                  ("top" +:+ ".v"),
        verilog (get_verilog (platform_obj (sample_world "lfe5u-25f-xyz999")) "top"));
       (path_join (path_join (cwd (sample_world "lfe5u-25f-xyz999")) "build")
                  ("top" +:+ ".lpf"), sample_lpf);
       (path_join (path_join (cwd (sample_world "lfe5u-25f-xyz999")) "build")
                  ("top" +:+ ".ys"), str_join nl sample_yosys_lines)] /\
    calls w' = calls (sample_world "lfe5u-25f-xyz999").
Proof.
  apply (unknown_package_after_artifacts (posix_host 0) "build" "top" true false false
           (sample_world "lfe5u-25f-xyz999") "lfe5u" "25f" "xyz999" "25k"
           sample_signals [] sample_lpf sample_yosys_lines).
  - reflexivity.
  - absent.
  - absent.
  - absent.
  - vm_compute. reflexivity.
  - absent.
  - reflexivity.
  - vm_compute. reflexivity.
  - vm_compute. reflexivity.
Defined.

(** C3, as the claim states it, fails: the build of [lfe5u-25f-xyz999]
    raises the unknown-package error after three files have been written,
    the constraint file and the synthesis script among them. *)
Lemma unknown_package_writes_files :
  let w := sample_world "lfe5u-25f-xyz999" in
  let outcome := build (posix_host 0) "build" "top" true false false w in
  outcome.1 = Raise UnknownPackage /\
  files w = [] /\
  files outcome.2 =
    [("/home/user/design/build/top.v", "module top();");
     ("/home/user/design/build/top.lpf", sample_lpf);
     ("/home/user/design/build/top.ys", str_join nl sample_yosys_lines)] /\
  files outcome.2 <> files w.
Proof. vm_compute. repeat split; discriminate. Qed.

(** * Further properties of the code *)

(** ** Device identifiers *)

Lemma str_split_length (sep : ascii) (s : string) :
  length (str_split sep s) = S (count_char sep s).
Proof.
  induction s as [|c s IH]; [reflexivity|]. cbn [str_split count_char].
  destruct (Ascii.eqb c sep); cbn [length]; [by rewrite IH|].
  destruct (str_split sep s); cbn [length] in *; [discriminate | by rewrite IH].
Qed.

(** X1. A device identifier that does not have exactly two dashes is
    rejected when its parts are unpacked into family, size and package: with
    fewer dashes the [ValueError] reports the number of parts found, with
    more it reports too many values.  Neither table is consulted. *)
Theorem malformed_device_id (device : string) :
  count_char "-" device <> 2 ->
  resolve_device device =
    Raise (ValueError
      (if (count_char "-" device <? 2)%nat
       then "not enough values to unpack (expected 3, got "
            +:+ str_nat (S (count_char "-" device)) +:+ ")"
       else "too many values to unpack (expected 3)")).
Proof.
  intros Hcount. unfold resolve_device.
  pose proof (str_split_length "-" device) as Hlen.
  destruct (str_split "-" device) as [|a [|b [|c [|d parts]]]];
    cbn [length] in Hlen; [discriminate Hlen|..]; injection Hlen as Hlen.
  - rewrite <- Hlen. reflexivity.
  - rewrite <- Hlen. reflexivity.
  - congruence.
  - rewrite <- Hlen. reflexivity.
Qed.

Lemma malformed_device_id_witness :
  resolve_device "lfe5u-25f" =
    Raise (ValueError "not enough values to unpack (expected 3, got 2)") /\
  resolve_device "lfe5u-25f-8bg-381" =
    Raise (ValueError "too many values to unpack (expected 3)").
Proof.
  split.
  - apply (malformed_device_id "lfe5u-25f"). vm_compute. discriminate.
  - apply (malformed_device_id "lfe5u-25f-8bg-381"). vm_compute. discriminate.
Defined.

(** X2. When the lower-cased [family-size] is not a key of the architecture
    table, resolution raises the [KeyError] of that key; the package part is
    not looked at, so the error is the same whether or not the package is
    known. *)
Theorem unknown_architecture (family size package : string) :
  ~ occurs_in "-" family -> ~ occurs_in "-" size -> ~ occurs_in "-" package ->
  nextpnr_ecp5_architectures !! str_lower (family +:+ "-" +:+ size) = None ->
  resolve_device (device_id family size package)
    = Raise (KeyError (str_lower (family +:+ "-" +:+ size))).
Proof.
  intros Hf Hs Hp Hnone. rewrite resolve_device_parts by assumption.
  unfold dict_get. by rewrite Hnone.
Qed.

Lemma unknown_architecture_witness :
  resolve_device (device_id "LFE3" "35EA" "xyz999") = Raise (KeyError "lfe3-35ea").
Proof.
  apply (unknown_architecture "LFE3" "35EA" "xyz999"); try absent.
  vm_compute. reflexivity.
Defined.

Lemma ascii_lower_below (c d : ascii) :
  (nat_of_ascii d < 65)%nat -> d = ascii_lower c <-> d = c.
Proof.
  intros Hd. unfold ascii_lower.
  destruct ((65 <=? nat_of_ascii c)%nat && (nat_of_ascii c <=? 90)%nat) eqn:E;
    [|tauto].
  apply andb_true_iff in E as [Hlo%Nat.leb_le Hhi%Nat.leb_le].
  split; intros ->; exfalso.
  - rewrite nat_ascii_embedding in Hd by lia. lia.
  - lia.
Qed.

Lemma ascii_lower_eqb (c d : ascii) :
  (nat_of_ascii d < 65)%nat -> Ascii.eqb (ascii_lower c) d = Ascii.eqb c d.
Proof.
  intros Hd. pose proof (ascii_lower_below c d Hd) as H.
  destruct (Ascii.eqb_spec (ascii_lower c) d) as [E1|E1],
           (Ascii.eqb_spec c d) as [E2|E2]; try reflexivity; exfalso.
  - apply E2. symmetry. apply H. by symmetry.
  - apply E1. symmetry. apply H. by symmetry.
Qed.

Lemma prefix_lower (m s : string) :
  below_letters m = true -> String.prefix m (str_lower s) = String.prefix m s.
Proof.
  revert s. induction m as [|x m IH]; intros s Hm; [by destruct s|].
  cbn [below_letters] in Hm. apply andb_true_iff in Hm as [Hx%Nat.ltb_lt Hm].
  destruct s as [|y s]; [reflexivity|]. cbn [str_lower String.prefix].
  pose proof (ascii_lower_below y x Hx) as H.
  destruct (ascii_dec x (ascii_lower y)) as [E1|E1], (ascii_dec x y) as [E2|E2].
  - by apply IH.
  - exfalso. apply E2. by apply H.
  - exfalso. apply E1. by apply H.
  - reflexivity.
Qed.

Lemma str_in_lower (m s : string) :
  below_letters m = true -> str_in m (str_lower s) = str_in m s.
Proof.
  intros Hm. induction s as [|y s IH].
  - reflexivity.
  - cbn [str_in]. rewrite <- IH. cbn [str_lower str_in].
    by rewrite <- (prefix_lower m (String y s)).
Qed.

Lemma str_lower_idem (s : string) : str_lower (str_lower s) = str_lower s.
Proof.
  induction s as [|c s IH]; [reflexivity|]. cbn [str_lower]. rewrite IH. f_equal.
  unfold ascii_lower at 1.
  destruct ((65 <=? nat_of_ascii (ascii_lower c))%nat
            && (nat_of_ascii (ascii_lower c) <=? 90)%nat) eqn:E; [|reflexivity].
  exfalso. apply andb_true_iff in E as [Hlo%Nat.leb_le Hhi%Nat.leb_le].
  unfold ascii_lower in Hlo, Hhi.
  destruct ((65 <=? nat_of_ascii c)%nat && (nat_of_ascii c <=? 90)%nat) eqn:E'.
  - apply andb_true_iff in E' as [Hlo'%Nat.leb_le Hhi'%Nat.leb_le].
    rewrite nat_ascii_embedding in Hhi by lia. lia.
  - apply andb_false_iff in E' as [E'%Nat.leb_gt|E'%Nat.leb_gt]; lia.
Qed.

Lemma str_split_lower (s : string) :
  str_split "-" (str_lower s) = map str_lower (str_split "-" s).
Proof.
  induction s as [|c s IH]; [reflexivity|]. cbn [str_lower str_split].
  rewrite (ascii_lower_eqb c "-") by (vm_compute; lia).
  destruct (Ascii.eqb c "-"); [by rewrite IH|].
  rewrite IH. by destruct (str_split "-" s).
Qed.

Lemma nextpnr_ecp5_package_lower (package : string) :
  nextpnr_ecp5_package (str_lower package) = nextpnr_ecp5_package package.
Proof. unfold nextpnr_ecp5_package. by rewrite !str_in_lower. Qed.

(** X3. Device resolution does not depend on the case of any part of the
    identifier: an identifier and its lower-cased form resolve to the same
    architecture and package, or fail with the same exception. *)
Theorem resolve_device_lower (device : string) :
  resolve_device (str_lower device) = resolve_device device.
Proof.
  unfold resolve_device. rewrite str_split_lower.
  destruct (str_split "-" device) as [|a [|b [|c [|d parts]]]]; try reflexivity.
  cbn [map unpack3]. rsimpl.
  rewrite nextpnr_ecp5_package_lower.
  by rewrite !str_lower_app, !str_lower_idem.
Qed.

Example resolve_device_upper :
  resolve_device "LFE5UM5G-85F-8BG756C" = Ok ("um5g-85k", "CABGA756").
Proof. vm_compute. reflexivity. Qed.

(** ** Constraint file: what the loops keep *)

(** The loops only ever append to the text accumulated so far. *)
Lemma _build_lpf_bits_acc (sig : string) (others : list constraint) (resname : string)
    (i : nat) (pins : list string) (r : string) :
  _build_lpf_bits sig others resname i pins r
    = String.append r <$> _build_lpf_bits sig others resname i pins "".
Proof.
  revert i r. induction pins as [|p pins IH]; intros i r.
  - cbn [_build_lpf_bits]. rsimpl. by rewrite str_app_nil_r.
  - cbn [_build_lpf_bits].
    destruct (_format_lpf (sig +:+ "[" +:+ str_nat i +:+ "]") p others resname)
      as [s|e]; [|reflexivity].
    rsimpl. rewrite (IH (S i) (r +:+ s)), (IH (S i) ("" +:+ s)).
    by rewrite fmap_append_append.
Qed.

Lemma _build_lpf_body_acc (entry : named_signal) (r : string) :
  _build_lpf_body entry r = String.append r <$> _build_lpf_body entry "".
Proof.
  destruct entry as [[[sig pins] others] resname]. unfold _build_lpf_body.
  destruct (1 <? length pins)%nat; [apply _build_lpf_bits_acc|].
  destruct (list_get pins 0) as [p0|e]; [|reflexivity]. rsimpl.
  by destruct (_format_lpf sig p0 others resname).
Qed.

Lemma _build_lpf_signals_acc (named_sc : list named_signal) (r : string) :
  _build_lpf_signals named_sc r
    = String.append r <$> _build_lpf_signals named_sc "".
Proof.
  revert r. induction named_sc as [|entry named_sc IH]; intros r.
  - cbn [_build_lpf_signals]. rsimpl. by rewrite str_app_nil_r.
  - cbn [_build_lpf_signals].
    rewrite (_build_lpf_body_acc entry r).
    destruct (_build_lpf_body entry "") as [s|e]; [|reflexivity].
    rsimpl. rewrite (IH (r +:+ s)), (IH s). by rewrite fmap_append_append.
Qed.

Lemma str_join_cons (sep c : string) (cs : list string) :
  str_join sep (c :: cs) = c +:+ str_concat (map (String.append sep) cs).
Proof.
  revert c. induction cs as [|d cs IH]; intros c.
  - simpl. by rewrite str_app_nil_r.
  - change (str_join sep (c :: d :: cs)) with (c +:+ sep +:+ str_join sep (d :: cs)).
    rewrite IH. cbn [map str_concat foldr]. by rewrite !str_app_assoc.
Qed.

(** The signals section of a constraint file: the text between the header
    and the platform commands. *)
Lemma _build_lpf_sections (named_sc : list named_signal) (named_pc : list string) :
  _build_lpf named_sc named_pc
    = (fun signals => lpf_header +:+ signals +:+ platform_commands_text named_pc)
      <$> _build_lpf_signals named_sc "".
Proof.
  unfold _build_lpf.
  change (("BLOCK RESETPATHS;" +:+ nl) +:+ "BLOCK ASYNCPATHS;" +:+ nl)
    with lpf_header.
  rewrite _build_lpf_signals_acc.
  destruct (_build_lpf_signals named_sc "") as [signals|e]; [|reflexivity].
  rsimpl. destruct named_pc as [|c named_pc].
  - rewrite bool_decide_false by (intros H; by apply H).
    unfold mret, result_ret, platform_commands_text. by rewrite !str_app_nil_r.
  - rewrite bool_decide_true by done.
    unfold mret, result_ret, platform_commands_text. by rewrite !str_app_assoc.
Qed.

(** X4. Whatever the signals and the platform commands, a constraint file
    that the builder returns starts with the two header directives
    [BLOCK RESETPATHS;] and [BLOCK ASYNCPATHS;], each on a line of its own. *)
Theorem constraint_file_header_first (named_sc : list named_signal)
    (named_pc : list string) (out : string) :
  _build_lpf named_sc named_pc = Ok out ->
  exists rest,
    out = "BLOCK RESETPATHS;" +:+ nl +:+ "BLOCK ASYNCPATHS;" +:+ nl +:+ rest.
Proof.
  rewrite _build_lpf_sections.
  destruct (_build_lpf_signals named_sc "") as [signals|e]; [|discriminate].
  intros [= <-]. exists (signals +:+ platform_commands_text named_pc).
  reflexivity.
Qed.

Lemma constraint_file_header_first_witness :
  exists rest,
    sample_lpf = "BLOCK RESETPATHS;" +:+ nl +:+ "BLOCK ASYNCPATHS;" +:+ nl +:+ rest.
Proof.
  apply (constraint_file_header_first sample_signals []). vm_compute. reflexivity.
Defined.

(** X5. Platform commands change nothing but the end of the constraint
    file: with commands [c :: cs] the builder fails exactly as it does
    without commands, and otherwise returns the file it returns without
    commands followed by one empty line, [c], and each further command after
    one more empty line. *)
Theorem platform_commands_appended (named_sc : list named_signal)
    (c : string) (cs : list string) :
  _build_lpf named_sc (c :: cs)
    = (fun file => file +:+ nl +:+ c
                   +:+ str_concat (map (fun c' => nl +:+ nl +:+ c') cs))
      <$> _build_lpf named_sc [].
Proof.
  rewrite !_build_lpf_sections.
  destruct (_build_lpf_signals named_sc "") as [signals|e]; [|reflexivity].
  rsimpl. f_equal. unfold platform_commands_text.
  rewrite str_join_cons, !str_app_assoc. cbn [String.append]. by do 4 f_equal.
Qed.

(** X6. The builder treats its signals one after the other: when two lists
    of signals give the files [header ++ a] and [header ++ b], their
    concatenation gives [header ++ a ++ b] followed by the platform
    commands. *)
Theorem constraint_file_concatenation (sc1 sc2 : list named_signal)
    (named_pc : list string) (text1 text2 : string) :
  _build_lpf sc1 [] = Ok (lpf_header +:+ text1) ->
  _build_lpf sc2 [] = Ok (lpf_header +:+ text2) ->
  _build_lpf (sc1 ++ sc2) named_pc
    = Ok (lpf_header +:+ text1 +:+ text2 +:+ platform_commands_text named_pc).
Proof.
  rewrite !_build_lpf_sections, _build_lpf_signals_app.
  destruct (_build_lpf_signals sc1 "") as [s1|e]; [|discriminate].
  destruct (_build_lpf_signals sc2 "") as [s2|e] eqn:E2; [|discriminate].
  rsimpl. cbn [platform_commands_text]. rewrite !str_app_nil_r.
  intros [= H1] [= H2]. subst.
  rewrite _build_lpf_signals_acc, E2. rsimpl. by rewrite !str_app_assoc.
Qed.

Lemma constraint_file_concatenation_witness :
  _build_lpf ([("clk", ["A1"], [IOStandard "LVCMOS33"], "clk100")]
              ++ [("led", ["B1"; "B2"], [IOStandard "LVCMOS25"; Misc "DRIVE=4"],
                   "user_led")]) ["SYSCONFIG;"]
    = Ok (lpf_header
          +:+ block "clk" "A1" [IOStandard "LVCMOS33"]
          +:+ (block "led[0]" "B1" [IOStandard "LVCMOS25"; Misc "DRIVE=4"]
               +:+ block "led[1]" "B2" [IOStandard "LVCMOS25"; Misc "DRIVE=4"])
          +:+ platform_commands_text ["SYSCONFIG;"]).
Proof.
  apply (constraint_file_concatenation
           [("clk", ["A1"], [IOStandard "LVCMOS33"], "clk100")]
           [("led", ["B1"; "B2"], [IOStandard "LVCMOS25"; Misc "DRIVE=4"], "user_led")]
           ["SYSCONFIG;"]); vm_compute; reflexivity.
Defined.

(** X7. The first signal that cannot be rendered decides the exception:
    when the builder raises on a list of signals, it raises the same
    exception on that list followed by any further signals, whatever the
    platform commands. *)
Theorem constraint_file_first_error (sc1 sc2 : list named_signal)
    (named_pc named_pc' : list string) (e : exn) :
  _build_lpf sc1 named_pc = Raise e ->
  _build_lpf (sc1 ++ sc2) named_pc' = Raise e.
Proof.
  rewrite !_build_lpf_sections, _build_lpf_signals_app.
  destruct (_build_lpf_signals sc1 "") as [s1|e1]; [discriminate|].
  by intros [= ->].
Qed.

Lemma constraint_file_first_error_witness :
  _build_lpf ([("led", ["B1"], [OtherDirective "Drive"], "user_led")]
              ++ [("rst", [], [], "cpu_reset")]) ["SYSCONFIG;"]
    = Raise TypeError.
Proof.
  apply (constraint_file_first_error
           [("led", ["B1"], [OtherDirective "Drive"], "user_led")]
           [("rst", [], [], "cpu_reset")] [] ["SYSCONFIG;"]).
  vm_compute. reflexivity.
Defined.

(** X8. A signal with exactly one pin contributes exactly one block, named
    by the signal without an index: the [LOCATE] clause of its pin followed
    by one clause per extra directive in input order.  The extra directives
    are formattable and the signals around it are well formed. *)
Theorem scalar_signal_block (before after : list named_signal) (sig pin : string)
    (others : list constraint) (resname : string) (named_pc : list string) :
  Forall (fun c => formattable c = true) others ->
  Forall well_formed_signal before ->
  Forall well_formed_signal after ->
  _build_lpf (before ++ (sig, [pin], others, resname) :: after) named_pc
    = Ok (lpf_header
          +:+ str_concat (map signal_text before)
          +:+ str_concat (locate_clause sig pin :: map (directive_clause sig) others)
          +:+ str_concat (map signal_text after)
          +:+ platform_commands_text named_pc).
Proof.
  intros Hothers Hbefore Hafter. rewrite _build_lpf_ok.
  - rewrite map_app, str_concat_app. cbn [map str_concat foldr signal_text].
    unfold block, block_clauses. cbn [str_concat foldr].
    by rewrite !str_app_assoc.
  - apply Forall_app. split; [done|]. constructor; [|done]. by split.
Qed.

Lemma scalar_signal_block_witness :
  _build_lpf ([] ++ ("clk", ["A1"], [IOStandard "LVCMOS33"], "clk100")
                 :: [("led", ["B1"; "B2"], [IOStandard "LVCMOS25"; Misc "DRIVE=4"],
                      "user_led")]) []
    = Ok (lpf_header
          +:+ str_concat (map signal_text [])
          +:+ str_concat (locate_clause "clk" "A1"
                          :: map (directive_clause "clk") [IOStandard "LVCMOS33"])
          +:+ str_concat (map signal_text
                [("led", ["B1"; "B2"], [IOStandard "LVCMOS25"; Misc "DRIVE=4"],
                  "user_led")])
          +:+ platform_commands_text []).
Proof.
  apply (scalar_signal_block [] _ "clk" "A1" [IOStandard "LVCMOS33"] "clk100" []).
  - repeat constructor.
  - constructor.
  - repeat constructor. discriminate.
Defined.

(** ** Script assembler: templates that do not render, templates that do *)

(** A [KeyError] comes from a replacement field, so what follows the field
    in the template cannot undo it. *)
Lemma format_go_KeyError (kw : gmap string string) (s t : string) (st : fmt_state)
    (key : string) :
  format_go kw s st = Raise (KeyError key) ->
  format_go kw (s +:+ t) st = Raise (KeyError key).
Proof.
  revert st. induction s as [|c s IH]; intros st.
  - by destruct st.
  - cbn [String.append format_go]. destruct st as [| | |name].
    + destruct (Ascii.eqb c "{"); [apply IH|].
      destruct (Ascii.eqb c "}"); [apply IH|].
      destruct (format_go kw s FText) as [r|e] eqn:E; [discriminate|].
      intros [= ->]. by rewrite (IH FText).
    + destruct (Ascii.eqb c "{").
      { destruct (format_go kw s FText) as [r|e] eqn:E; [discriminate|].
        intros [= ->]. by rewrite (IH FText). }
      destruct (Ascii.eqb c "}"); [discriminate|].
      destruct (field_special c); [discriminate | apply IH].
    + destruct (Ascii.eqb c "}"); [|discriminate].
      destruct (format_go kw s FText) as [r|e] eqn:E; [discriminate|].
      intros [= ->]. by rewrite (IH FText).
    + destruct (Ascii.eqb c "}").
      { destruct (field_value kw name) as [v|e]; [|done]. rsimpl.
        destruct (format_go kw s FText) as [r|e] eqn:E; [discriminate|].
        intros [= ->]. by rewrite (IH FText). }
      destruct (field_special c); [discriminate | apply IH].
Qed.

Lemma _build_script_loop_app (kw : gmap string string) (a b : list string)
    (contents : string) :
  _build_script_loop kw (a ++ b) contents
    = (contents' ← _build_script_loop kw a contents; _build_script_loop kw b contents').
Proof.
  revert contents. induction a as [|s a IH]; intros contents; [reflexivity|].
  cbn [app _build_script_loop].
  destruct (str_format (s +:+ "{fail_stmt}" +:+ nl) kw); rsimpl; [apply IH | reflexivity].
Qed.

(** X9. A build template that names a placeholder outside the six keyword
    arguments stops the assembly: when the templates before it render and
    its own rendering raises the [KeyError] of the placeholder,
    [_build_script] raises that [KeyError] and writes no script file. *)
Theorem build_script_unknown_placeholder (h : host) (source : bool)
    (before after rendered : list string) (s key : string)
    (build_name architecture package freq_constraint : string)
    (timingstrict : bool) (w : world) :
  Forall2 (fun s line =>
             str_format s (script_kwargs h build_name architecture package
                             freq_constraint timingstrict) = Ok line)
          before rendered ->
  str_format s (script_kwargs h build_name architecture package
                  freq_constraint timingstrict) = Raise (KeyError key) ->
  _build_script h source (before ++ s :: after) build_name architecture package
                freq_constraint timingstrict w
    = (Raise (KeyError key), w).
Proof.
  intros Hbefore Hs. unfold _build_script.
  unfold mbind at 1. unfold M_bind, lift.
  rewrite _build_script_loop_app.
  rewrite (_build_script_loop_ok _ (fail_stmt h) _ rendered);
    [|apply script_kwargs_fail_stmt|exact Hbefore].
  rsimpl. cbn [_build_script_loop]. unfold str_format in *.
  by rewrite (format_go_KeyError _ _ _ _ _ Hs).
Qed.

Lemma build_script_unknown_placeholder_witness :
  _build_script (posix_host 0) false
    (["yosys -q -l {build_name}.rpt {build_name}.ys"]
     ++ "nextpnr-ecp5 --json {build_name}.json --device {device}"
     :: ["ecppack {build_name}.config"])
    "top" "25k" "CSFBGA285" "0.0" false (sample_world "lfe5u-25f-csfbga285")
  = (Raise (KeyError "device"), sample_world "lfe5u-25f-csfbga285").
Proof.
  apply (build_script_unknown_placeholder (posix_host 0) false
           ["yosys -q -l {build_name}.rpt {build_name}.ys"]
           ["ecppack {build_name}.config"]
           ["yosys -q -l top.rpt top.ys"]).
  - repeat constructor.
  - vm_compute. reflexivity.
Defined.

(** Renders a closed template under keyword arguments known through
    [field_value] equations. *)
Ltac render :=
  unfold str_format; cbv -[field_value];
  repeat match goal with
         | H : field_value _ _ = Ok _ |- _ => rewrite !H
         end;
  reflexivity.

Lemma build_template_renders (kw : gmap string string)
    (build_name architecture package freq_constraint timefailarg : string) :
  field_value kw "build_name" = Ok build_name ->
  field_value kw "architecture" = Ok architecture ->
  field_value kw "package" = Ok package ->
  field_value kw "freq_constraint" = Ok freq_constraint ->
  field_value kw "timefailarg" = Ok timefailarg ->
  Forall2 (fun s line => str_format s kw = Ok line)
    (build_template __init__)
    ["yosys -q -l " +:+ build_name +:+ ".rpt " +:+ build_name +:+ ".ys";
     "nextpnr-ecp5 --json " +:+ build_name +:+ ".json --lpf " +:+ build_name
       +:+ ".lpf --textcfg " +:+ build_name +:+ ".config --" +:+ architecture
       +:+ " --package " +:+ package +:+ " --freq " +:+ freq_constraint +:+ " "
       +:+ timefailarg;
     "ecppack " +:+ build_name +:+ ".config --svf " +:+ build_name
       +:+ ".svf --bit " +:+ build_name +:+ ".bit"].
Proof.
  intros Hn Ha Hp Hf Ht. unfold __init__, build_template.
  constructor; [render|].
  constructor; [rewrite <- (str_app_nil_r timefailarg); render|].
  constructor; [render|]. constructor.
Qed.

Lemma default_build_template_renders (h : host) (build_name architecture package
    freq_constraint : string) (timingstrict : bool) :
  Forall2 (fun s line =>
             str_format s (script_kwargs h build_name architecture package
                             freq_constraint timingstrict) = Ok line)
          (build_template __init__)
          (default_build_lines build_name architecture package freq_constraint
                               timingstrict).
Proof.
  unfold default_build_lines.
  apply build_template_renders; try reflexivity. by destruct timingstrict.
Qed.

(** X10. The build template of [__init__] always renders: whatever the
    build name, architecture, package, frequency and flags, [_build_script]
    returns the script name and writes one script, whose commands are yosys,
    nextpnr-ecp5 and ecppack in this order; the nextpnr-ecp5 command ends
    with [--timing-allow-fail] exactly when [timingstrict] is false. *)
Theorem default_build_script (h : host) (source : bool)
    (build_name architecture package freq_constraint : string)
    (timingstrict : bool) (w : world) :
  exists w',
    _build_script h source (build_template __init__) build_name architecture
                  package freq_constraint timingstrict w
      = (Ok ("build_" +:+ build_name +:+ script_ext h), w') /\
    files w' = files w ++
      [(path_join (cwd w) ("build_" +:+ build_name +:+ script_ext h),
        script_header h
        +:+ str_concat (map (script_line h)
              (default_build_lines build_name architecture package
                                   freq_constraint timingstrict)))] /\
    cwd w' = cwd w /\ calls w' = calls w /\ dirs w' = dirs w.
Proof.
  eexists. split.
  { unfold _build_script.
    unfold mbind at 1. unfold M_bind, lift.
    rewrite (_build_script_loop_ok _ (fail_stmt h) _
               (default_build_lines build_name architecture package
                                    freq_constraint timingstrict));
      [|apply script_kwargs_fail_stmt|apply default_build_template_renders].
    unfold write_to_file. msimpl. reflexivity. }
  repeat split.
Qed.

(** ** Synthesis script *)

Lemma include_flags_fold (paths : list string) (acc : string) :
  fold_left (fun includes path => includes +:+ " -I" +:+ path) paths acc
    = acc +:+ include_flags paths.
Proof.
  unfold include_flags. revert acc. induction paths as [|p paths IH]; intros acc.
  - simpl. by rewrite str_app_nil_r.
  - cbn [fold_left map str_concat foldr]. rewrite IH. by rewrite !str_app_assoc.
Qed.

Lemma str_join_snoc (sep : string) (parts : list string) (last : string) :
  parts <> [] ->
  str_join sep (parts ++ [last]) = str_join sep parts +:+ sep +:+ last.
Proof.
  induction parts as [|p parts IH]; [done|]. intros _.
  destruct parts as [|q parts]; [reflexivity|].
  change (str_join sep ((p :: q :: parts) ++ [last]))
    with (p +:+ sep +:+ str_join sep ((q :: parts) ++ [last])).
  rewrite IH by done.
  change (str_join sep (p :: q :: parts)) with (p +:+ sep +:+ str_join sep (q :: parts)).
  by rewrite !str_app_assoc.
Qed.

(** X11. A source registered last adds one line at the end of the text
    [yosys_import_sources] produces and leaves the lines of the other
    sources untouched: the new line is [read_] followed by the language,
    one [-I] flag per include path and the file name, and it is the whole
    text when there is no other source.  The library of a source is never
    used. *)
Theorem yosys_import_sources_last (p p' : platform) (filename language library : string) :
  sources p' = sources p ++ [(filename, language, library)] ->
  verilog_include_paths p' = verilog_include_paths p ->
  yosys_import_sources p'
    = (if bool_decide (sources p = []) then "" else yosys_import_sources p +:+ nl)
      +:+ "read_" +:+ language +:+ include_flags (verilog_include_paths p)
      +:+ " " +:+ filename.
Proof.
  intros Hsrc Hinc. unfold yosys_import_sources. rewrite Hsrc, Hinc.
  rewrite !include_flags_fold. cbn [String.append]. rewrite map_app.
  destruct (sources p) as [|s srcs] eqn:E.
  - rewrite bool_decide_true by done. reflexivity.
  - rewrite bool_decide_false by done. cbn [map].
    rewrite str_join_snoc by done. by rewrite !str_app_assoc.
Qed.

Lemma yosys_import_sources_last_witness :
  yosys_import_sources
    (platform_add_source (sample_platform "lfe5u-25f-csfbga285") "top.v")
  = (if bool_decide (sources (sample_platform "lfe5u-25f-csfbga285") = [])
     then "" else yosys_import_sources (sample_platform "lfe5u-25f-csfbga285") +:+ nl)
    +:+ "read_" +:+ "verilog"
    +:+ include_flags (verilog_include_paths (sample_platform "lfe5u-25f-csfbga285"))
    +:+ " " +:+ "top.v".
Proof.
  apply (yosys_import_sources_last (sample_platform "lfe5u-25f-csfbga285")
           (platform_add_source (sample_platform "lfe5u-25f-csfbga285") "top.v")
           "top.v" "verilog" "work"); reflexivity.
Defined.

Example yosys_import_sources_two :
  yosys_import_sources
    {| device := "lfe5u-25f-csfbga285"; verilog_include_paths := ["rtl"; "ip"];
       sources := [("core.v", "verilog", "work"); ("top.v", "verilog", "work")];
       commands := []; get_verilog := get_verilog (sample_platform "");
       resolve_signals := resolve_signals (sample_platform "") |}
  = "read_verilog -Irtl -Iip core.v" +:+ nl +:+ "read_verilog -Irtl -Iip top.v".
Proof. vm_compute. reflexivity. Qed.

Lemma yosys_template_renders (kw : gmap string string)
    (read_files build_name nwl : string) :
  field_value kw "read_files" = Ok read_files ->
  field_value kw "build_name" = Ok build_name ->
  field_value kw "nwl" = Ok nwl ->
  Forall2 (fun s line => str_format s kw = Ok line)
    (yosys_template __init__)
    [read_files;
     "attrmap -tocase keep -imap keep=" +:+ dquote +:+ "true" +:+ dquote
       +:+ " keep=1 -imap keep=" +:+ dquote +:+ "false" +:+ dquote
       +:+ " keep=0 -remove keep=0";
     "synth_ecp5 -abc9 " +:+ nwl +:+ " -json " +:+ build_name +:+ ".json -top "
       +:+ build_name].
Proof.
  intros Hr Hn Hw. unfold __init__, yosys_template.
  constructor; [rewrite <- (str_app_nil_r read_files); render|].
  constructor; [render|].
  constructor; [rewrite <- (str_app_nil_r build_name) at 2; render|].
  constructor.
Qed.

Lemma default_yosys_template_renders (p : platform) (build_name : string)
    (nowidelut : bool) :
  comprehension (fun t => str_format t (yosys_kwargs p build_name nowidelut))
                (yosys_template __init__)
    = Ok (default_yosys_lines (yosys_import_sources p) build_name nowidelut).
Proof.
  apply comprehension_Forall2. unfold default_yosys_lines.
  apply yosys_template_renders; reflexivity.
Qed.

(** ** Period constraints *)

Lemma frequency_template_renders (kw : gmap string string) (clk freq : string) :
  field_value kw "clk" = Ok clk ->
  field_value kw "freq" = Ok freq ->
  str_format
    ("FREQUENCY PORT " +:+ dquote +:+ "{clk}" +:+ dquote +:+ " {freq} MHz;") kw
  = Ok ("FREQUENCY PORT " +:+ dquote +:+ clk +:+ dquote +:+ " " +:+ freq +:+ " MHz;").
Proof. intros Hc Hf. render. Qed.

(** X12. [add_period_constraint] fails on a zero period only, with the
    [ZeroDivisionError] of [1/period] and without registering anything.  For
    any other period it registers exactly one platform command for the
    clock, [FREQUENCY PORT "{clk}" f MHz;] where [f] is [str] of
    [1/period*1000] and the placeholder [{clk}] is kept for the platform to
    resolve. *)
Theorem add_period_constraint_outcome (h : host) (clk : string) (period : float)
    (w : world) :
  add_period_constraint h clk period w =
    if PrimFloat.eqb period 0
    then (Raise ZeroDivisionError, w)
    else add_platform_command (frequency_command h period) clk w.
Proof.
  unfold add_period_constraint.
  unfold mbind at 1. unfold M_bind, lift.
  destruct (PrimFloat.eqb period 0); [reflexivity|].
  unfold mbind at 1. unfold M_bind.
  rewrite (frequency_template_renders _ "{clk}" (str_float h (1 / period * 1000)))
    by reflexivity.
  reflexivity.
Qed.

Example add_period_constraint_zero :
  add_period_constraint (posix_host 0) "clk" 0 (sample_world "lfe5u-25f-csfbga285")
    = (Raise ZeroDivisionError, sample_world "lfe5u-25f-csfbga285").
Proof. vm_compute. reflexivity. Qed.

(** ** Build driver: complete runs *)

(** Runs [build] up to the point where the build script has been written,
    under the hypotheses [Hy], [Hb] (templates of [__init__]), [Hres], [Hlpf]
    and [Hdev] (signals, constraint file and device). *)
Ltac build_to_script h Hy Hb Hres Hlpf Hdev :=
  unfold_build; rewrite Hres; world_simpl; rewrite Hlpf; world_simpl;
  rewrite Hy, default_yosys_template_renders; world_simpl;
  cbn [platform_add_source device]; rewrite Hdev; world_simpl; rewrite Hb;
  erewrite (_build_script_loop_ok _ (fail_stmt h));
    [|apply script_kwargs_fail_stmt|apply default_build_template_renders];
  world_simpl.

(** X13. With the templates of [__init__], a build whose device resolves
    and whose constraint file can be built succeeds whenever the script is
    not run or exits with status 0: it returns the namespace of the
    rendered design, has written exactly the Verilog top file, the
    constraint file, the synthesis script and the build script, in this
    order and inside the build directory, has run the script once if [run]
    is set and no command otherwise, and has changed back to the directory
    it was entered from. *)
Theorem build_succeeds (h : host) (build_dir build_name : string)
    (run nowidelut timingstrict : bool) (w : world)
    (architecture package : string)
    (named_sc : list named_signal) (named_pc : list string) (lpf : string) :
  yosys_template (self_obj w) = yosys_template __init__ ->
  build_template (self_obj w) = build_template __init__ ->
  resolve_signals (platform_obj w) (ns (get_verilog (platform_obj w) build_name))
    = (named_sc, named_pc) ->
  _build_lpf named_sc named_pc = Ok lpf ->
  resolve_device (device (platform_obj w)) = Ok (architecture, package) ->
  String.prefix "/" (cwd w) = true ->
  (run = true ->
   exit_status h (script_command h ("build_" +:+ build_name +:+ script_ext h)) = 0%Z) ->
  exists w',
    build h build_dir build_name run nowidelut timingstrict w
      = (Ok (ns (get_verilog (platform_obj w) build_name)), w') /\
    files w' = files w ++ build_artifacts h w build_dir build_name nowidelut
                            timingstrict architecture package lpf /\
    calls w' = calls w ++
      (if run
       then [script_command h ("build_" +:+ build_name +:+ script_ext h)]
       else []) /\
    cwd w' = cwd w.
Proof.
  intros Hy Hb Hres Hlpf Hdev Habs Hstatus. destruct run; eexists; split.
  - build_to_script h Hy Hb Hres Hlpf Hdev.
    unfold script_command in Hstatus. rewrite (Hstatus eq_refl).
    rewrite bool_decide_false by (intros H; by apply H). reflexivity.
  - split; [|split].
    + cbn [files]. unfold build_artifacts. by rewrite <- !app_assoc.
    + reflexivity.
    + cbn [cwd]. unfold path_join at 1. by rewrite Habs.
  - build_to_script h Hy Hb Hres Hlpf Hdev. reflexivity.
  - split; [|split].
    + cbn [files]. unfold build_artifacts. by rewrite <- !app_assoc.
    + cbn [calls]. by rewrite app_nil_r.
    + cbn [cwd]. unfold path_join at 1. by rewrite Habs.
Qed.

Lemma build_succeeds_witness :
  exists w',
    build (posix_host 0) "build" "top" true false false
          (sample_world "lfe5u-25f-csfbga285")
      = (Ok (ns (get_verilog (platform_obj (sample_world "lfe5u-25f-csfbga285"))
                             "top")), w') /\
    files w' = files (sample_world "lfe5u-25f-csfbga285") ++
      build_artifacts (posix_host 0) (sample_world "lfe5u-25f-csfbga285")
                      "build" "top" false false "25k" "CSFBGA285" sample_lpf /\
    calls w' = calls (sample_world "lfe5u-25f-csfbga285") ++
      (if true
       then [script_command (posix_host 0)
               ("build_" +:+ "top" +:+ script_ext (posix_host 0))]
       else []) /\
    cwd w' = cwd (sample_world "lfe5u-25f-csfbga285").
Proof.
  apply (build_succeeds (posix_host 0) "build" "top" true false false
           (sample_world "lfe5u-25f-csfbga285") "25k" "CSFBGA285"
           sample_signals [] sample_lpf);
    first [reflexivity | vm_compute; reflexivity | intros _; reflexivity].
Defined.

(** X14. With the templates of [__init__], a build that runs its script
    and gets a non-zero exit status raises [OSError("Subprocess failed")]
    after everything else is done: the four files are written, the script
    has been run once, and the process is still in the build directory. *)
Theorem build_tool_failure (h : host) (build_dir build_name : string)
    (nowidelut timingstrict : bool) (w : world)
    (architecture package : string)
    (named_sc : list named_signal) (named_pc : list string) (lpf : string) :
  yosys_template (self_obj w) = yosys_template __init__ ->
  build_template (self_obj w) = build_template __init__ ->
  resolve_signals (platform_obj w) (ns (get_verilog (platform_obj w) build_name))
    = (named_sc, named_pc) ->
  _build_lpf named_sc named_pc = Ok lpf ->
  resolve_device (device (platform_obj w)) = Ok (architecture, package) ->
  exit_status h (script_command h ("build_" +:+ build_name +:+ script_ext h)) <> 0%Z ->
  exists w',
    build h build_dir build_name true nowidelut timingstrict w
      = (Raise (OSError "Subprocess failed"), w') /\
    files w' = files w ++ build_artifacts h w build_dir build_name nowidelut
                            timingstrict architecture package lpf /\
    calls w' = calls w ++
      [script_command h ("build_" +:+ build_name +:+ script_ext h)] /\
    cwd w' = path_join (cwd w) build_dir.
Proof.
  intros Hy Hb Hres Hlpf Hdev Hstatus. eexists. split.
  { build_to_script h Hy Hb Hres Hlpf Hdev.
    unfold script_command in Hstatus.
    rewrite bool_decide_true by exact Hstatus. reflexivity. }
  split; [|split].
  - cbn [files]. unfold build_artifacts. by rewrite <- !app_assoc.
  - reflexivity.
  - reflexivity.
Qed.

Lemma build_tool_failure_witness :
  exists w',
    build (posix_host 2) "build" "top" true true true
          (sample_world "lfe5um-45f-8bg381c")
      = (Raise (OSError "Subprocess failed"), w') /\
    files w' = files (sample_world "lfe5um-45f-8bg381c") ++
      build_artifacts (posix_host 2) (sample_world "lfe5um-45f-8bg381c")
                      "build" "top" true true "um-45k" "CABGA381" sample_lpf /\
    calls w' = calls (sample_world "lfe5um-45f-8bg381c") ++
      [script_command (posix_host 2)
         ("build_" +:+ "top" +:+ script_ext (posix_host 2))] /\
    cwd w' = path_join (cwd (sample_world "lfe5um-45f-8bg381c")) "build".
Proof.
  apply (build_tool_failure (posix_host 2) "build" "top" true true
           (sample_world "lfe5um-45f-8bg381c") "um-45k" "CABGA381"
           sample_signals [] sample_lpf);
    first [reflexivity | vm_compute; reflexivity | vm_compute; discriminate].
Defined.

(** ** Build driver: what every run does *)



(** X16. When the constraint file cannot be built, the build raises the
    exception of the builder unchanged, after the Verilog top file and
    before anything else: no constraint file, no synthesis script, no build
    script, no command, and the process is left in the build directory. *)
Theorem build_constraint_error (h : host) (build_dir build_name : string)
    (run nowidelut timingstrict : bool) (w : world)
    (named_sc : list named_signal) (named_pc : list string) (e : exn) :
  resolve_signals (platform_obj w) (ns (get_verilog (platform_obj w) build_name))
    = (named_sc, named_pc) ->
  _build_lpf named_sc named_pc = Raise e ->
  exists w',
    build h build_dir build_name run nowidelut timingstrict w = (Raise e, w') /\
    files w' = files w ++
      [(path_join (path_join (cwd w) build_dir) (build_name +:+ ".v"),
        verilog (get_verilog (platform_obj w) build_name))] /\
    calls w' = calls w /\
    cwd w' = path_join (cwd w) build_dir.
Proof.
  intros Hres Hlpf. eexists. split.
  { unfold_build. rewrite Hres. world_simpl. rewrite Hlpf. reflexivity. }
  repeat split.
Qed.

Lemma build_constraint_error_witness :
  exists w',
    build (posix_host 0) "build" "top" true false false sample_world_unrecognized
      = (Raise TypeError, w') /\
    files w' = files sample_world_unrecognized ++
      [(path_join (path_join (cwd sample_world_unrecognized) "build")
                  ("top" +:+ ".v"),
        verilog (get_verilog (platform_obj sample_world_unrecognized) "top"))] /\
    calls w' = calls sample_world_unrecognized /\
    cwd w' = path_join (cwd sample_world_unrecognized) "build".
Proof.
  apply (build_constraint_error (posix_host 0) "build" "top" true false false
           sample_world_unrecognized
           [("led", ["B1"], [OtherDirective "Drive"], "user_led")] [] TypeError).
  - reflexivity.
  - vm_compute. reflexivity.
Defined.

(** X17. When the device identifier does not resolve, whatever the reason
    (parts, architecture or package), the build raises the exception of the
    resolution unchanged, once the Verilog top file, the constraint file and
    the synthesis script are written; the build script is not written and
    no command is run. *)
Theorem build_device_error (h : host) (build_dir build_name : string)
    (run nowidelut timingstrict : bool) (w : world)
    (named_sc : list named_signal) (named_pc : list string)
    (lpf : string) (yosys_lines : list string) (e : exn) :
  resolve_signals (platform_obj w) (ns (get_verilog (platform_obj w) build_name))
    = (named_sc, named_pc) ->
  _build_lpf named_sc named_pc = Ok lpf ->
  comprehension
    (fun t => str_format t
       (yosys_kwargs (platform_add_source (platform_obj w) (build_name +:+ ".v"))
                     build_name nowidelut))
    (yosys_template (self_obj w)) = Ok yosys_lines ->
  resolve_device (device (platform_obj w)) = Raise e ->
  exists w',
    build h build_dir build_name run nowidelut timingstrict w = (Raise e, w') /\
    files w' = files w ++
      [(path_join (path_join (cwd w) build_dir) (build_name +:+ ".v"),
        verilog (get_verilog (platform_obj w) build_name));
       (path_join (path_join (cwd w) build_dir) (build_name +:+ ".lpf"), lpf);
       (path_join (path_join (cwd w) build_dir) (build_name +:+ ".ys"),
        str_join nl yosys_lines)] /\
    calls w' = calls w /\
    cwd w' = path_join (cwd w) build_dir.
Proof.
  intros Hres Hlpf Hys Hdev. eexists. split.
  { unfold_build. rewrite Hres. world_simpl. rewrite Hlpf. world_simpl.
    rewrite Hys. world_simpl. cbn [platform_add_source device].
    rewrite Hdev. reflexivity. }
  split; [|by split]. cbn [files]. by rewrite <- !app_assoc.
Qed.

Lemma build_device_error_witness :
  exists w',
    build (posix_host 0) "build" "top" true false false (sample_world "lfe3-35ea-381")
      = (Raise (KeyError "lfe3-35ea"), w') /\
    files w' = files (sample_world "lfe3-35ea-381") ++
      [(path_join (path_join (cwd (sample_world "lfe3-35ea-381")) "build")
                  ("top" +:+ ".v"),
        verilog (get_verilog (platform_obj (sample_world "lfe3-35ea-381")) "top"));
       (path_join (path_join (cwd (sample_world "lfe3-35ea-381")) "build")
                  ("top" +:+ ".lpf"), sample_lpf);
       (path_join (path_join (cwd (sample_world "lfe3-35ea-381")) "build")
                  ("top" +:+ ".ys"), str_join nl sample_yosys_lines)] /\
    calls w' = calls (sample_world "lfe3-35ea-381") /\
    cwd w' = path_join (cwd (sample_world "lfe3-35ea-381")) "build".
Proof.
  apply (build_device_error (posix_host 0) "build" "top" true false false
           (sample_world "lfe3-35ea-381") sample_signals [] sample_lpf
           sample_yosys_lines (KeyError "lfe3-35ea"));
    first [reflexivity | vm_compute; reflexivity].
Defined.

(** ** Smaller facts about the formatter and the resolver *)

Lemma _format_constraint_first_identifier (c c' : constraint) :
  same_first_identifier c c' -> _format_constraint c = _format_constraint c'.
Proof.
  destruct c as [[|i ids]|name|misc|cls], c' as [[|i' ids']|name'|misc'|cls'];
    cbn [same_first_identifier]; intros H; try discriminate H;
    try (injection H as <-); try reflexivity.
  by subst.
Qed.

(** X18. Of a pin assignment only the first identifier reaches the
    constraint file: two lists of extra directives that agree up to the
    further identifiers of their pin assignments give the same text, or the
    same exception, for a signal. *)
Theorem pins_first_identifier_only (signame pin : string)
    (others others' : list constraint) (resname : string) :
  Forall2 same_first_identifier others others' ->
  _format_lpf signame pin others resname = _format_lpf signame pin others' resname.
Proof.
  intros H. unfold _format_lpf. f_equal. cbn [app comprehension]. f_equal.
  induction H as [|c c' others others' Hc _ IH]; [reflexivity|].
  cbn [comprehension]. by rewrite (_format_constraint_first_identifier c c' Hc), IH.
Qed.

Lemma pins_first_identifier_only_witness :
  _format_lpf "led" "B1" [Pins ["C3"; "C4"]; Misc "DRIVE=4"] "user_led"
  = _format_lpf "led" "B1" [Pins ["C3"]; Misc "DRIVE=4"] "user_led".
Proof.
  apply pins_first_identifier_only. repeat constructor.
Defined.

(** X19. A device identifier that resolves has exactly two dashes, its
    architecture is a value of the architecture table and its package is
    one of the four nextpnr-ecp5 package names. *)
Theorem resolve_device_range (device architecture package : string) :
  resolve_device device = Ok (architecture, package) ->
  count_char "-" device = 2 /\
  (exists key, nextpnr_ecp5_architectures !! key = Some architecture) /\
  package ∈ package_names.
Proof.
  unfold resolve_device. pose proof (str_split_length "-" device) as Hlen.
  destruct (str_split "-" device) as [|a [|b [|c [|d parts]]]]; try discriminate.
  cbn [length] in Hlen. injection Hlen as <-. cbn [unpack3]. rsimpl.
  unfold dict_get.
  destruct (nextpnr_ecp5_architectures !! str_lower (a +:+ "-" +:+ b))
    as [arch|] eqn:Harch; [|discriminate].
  rsimpl. intros H. split; [reflexivity|].
  assert (exists pkg, nextpnr_ecp5_package c = Ok pkg /\ pkg ∈ package_names)
    as (pkg & Hpkg & Hin).
  { unfold nextpnr_ecp5_package, package_names.
    destruct (str_in "285" c) eqn:E1;
      [eexists; split; [done|]; apply list_elem_of_In; simpl; tauto|].
    destruct (str_in "381" c) eqn:E2;
      [eexists; split; [done|]; apply list_elem_of_In; simpl; tauto|].
    destruct (str_in "554" c) eqn:E3;
      [eexists; split; [done|]; apply list_elem_of_In; simpl; tauto|].
    destruct (str_in "756" c) eqn:E4;
      [eexists; split; [done|]; apply list_elem_of_In; simpl; tauto|].
    unfold nextpnr_ecp5_package in H. rewrite E1, E2, E3, E4 in H.
    discriminate H. }
  rewrite Hpkg in H. injection H as <- <-. split; [by eexists | exact Hin].
Qed.

Lemma resolve_device_range_witness :
  count_char "-" "lfe5um5g-85f-8bg554c" = 2 /\
  (exists key, nextpnr_ecp5_architectures !! key = Some "um5g-85k") /\
  "CABGA554" ∈ package_names.
Proof.
  apply (resolve_device_range "lfe5um5g-85f-8bg554c"). vm_compute. reflexivity.
Defined.
